(** * next_banking: server actions and generated payment client

    A shallow embedding of the server-side glue code of the repository:

    - [src/lib/actions/user.actions.ts]: [signIn], [signUp],
      [logoutAccount], [getLoggedInUser];
    - the server-action file appended to [src/components/AuthForm.tsx]:
      [createCheckbookCustomer], [connectToBankPlaid], [addFundingSource],
      [createTransfer];
    - [src/.api/apis/checkbook-docs/index.ts]: the generated [SDK] class.

    JavaScript data is a small JSON-like universe ([value]); the cookie store
    and HTTP headers are finite maps; effects are threaded through an explicit
    state-and-exception monad over a [World] that records the cookie jar, the
    console, the sequence of calls that left the process, the credentials
    stored in the SDK core and the promise rejections nobody handled. *)

From Stdlib Require Import ZArith QArith String List.
From stdpp Require Import gmap strings.
Import ListNotations.
Local Open Scope string_scope.

(** ** JavaScript values *)

(** Plain data as it crosses the vendor boundaries: request bodies, response
    payloads, thrown errors and console arguments.  No arithmetic is done on
    numbers anywhere in the modelled code, they are only passed along. *)
#[warnings="-register-all"]
Inductive value : Type :=
| VUndefined
| VNull
| VBool (b : bool)
| VNum (q : Q)
| VStr (s : string)
| VObj (fields : list (string * value)).

(** [headers.get(name)]: the header's value, or [null] when it is absent. *)
Definition of_header (o : option string) : value :=
  match o with
  | Some s => VStr s
  | None => VNull
  end.

(** A template literal renders a missing environment variable as the text
    [undefined]. *)
Definition tpl (o : option string) : string :=
  match o with
  | Some s => s
  | None => "undefined"
  end.

(** ** Completions and promises *)

(** How the evaluation of a block ends: normally with a value, or abruptly
    with a thrown value. *)
Inductive completion (A : Type) : Type :=
| Normal (a : A)
| Throw (e : value).
Arguments Normal {A} a.
Arguments Throw {A} e.

(** A promise is represented by the way it settles.  Each server action runs
    to completion on one request, so the settlement of a vendor promise is
    fixed by the vendor at the moment the request is issued. *)
Inductive Promise (A : Type) : Type :=
| Fulfilled (a : A)
| Rejected (e : value).
Arguments Fulfilled {A} a.
Arguments Rejected {A} e.

(** ** The world a server action runs in *)

Inductive SameSite : Type := SameSiteStrict | SameSiteLax | SameSiteNone.

(** A cookie as [cookies().set(name, value, options)] stores it; an attribute
    the options object does not mention is [None]. *)
Record Cookie : Type := mkCookie {
  cookie_value : string;
  cookie_path : option string;
  cookie_httpOnly : option bool;
  cookie_sameSite : option SameSite;
  cookie_secure : option bool;
  cookie_domain : option string;
  cookie_maxAge : option Z;
  cookie_expires : option Z
}.

Inductive LogLevel : Type := LevelLog | LevelError.

Record LogEntry : Type := mkLog {
  log_level : LogLevel;
  log_args : list value
}.

Inductive HttpMethod : Type := GET | POST | PUT | DELETE.

(** The options object built by [addFundingSource]. *)
Record FundingSourceOptions : Type := mkFundingSourceOptions {
  customerId : string;
  fundingSourceName : string;
  plaidToken : string;
  _links : value
}.

(** What the identity provider hands back for a new session; only the
    secret is read by this code. *)
Record Session : Type := mkSession {
  secret : string;
  session_fields : value
}.

(** The [Response] of the payment network's HTTP client. *)
Record Response : Type := mkResponse {
  resp_status : Z;
  resp_headers : gmap string string
}.

(** The [FetchResponse] of the generated client's core. *)
Record FetchResponse : Type := mkFetchResponse {
  data : value;
  status : Z
}.

(** The two client factories of [../appwrite] return an object whose type is
    not visible from here; the transcript keeps only whether they returned. *)
Inductive Outcome : Type := Ok | Failed (e : value).

(** Everything that leaves the action towards the request's cookie store or a
    vendor, in program order, each call with the answer it got. *)
Inductive Event : Type :=
| EvCreateAdminClient (r : Outcome)
| EvCreateSessionClient (r : Outcome)
| EvAccountCreate (userId email password name : string) (r : completion value)
| EvCreateEmailPasswordSession (email password : string) (r : completion Session)
| EvDeleteSession (sessionId : string) (r : completion value)
| EvAccountGet (r : completion value)
| EvCookieSet (name : string) (c : Cookie)
| EvCookieDelete (name : string)
| EvFetch (path : string) (method : HttpMethod) (args : list value)
          (r : Promise FetchResponse)
| EvCreateOnDemandAuthorization (r : completion value)
| EvCreateFundingSource (opts : FundingSourceOptions) (r : completion value)
| EvDwollaPost (path : string) (body : value) (r : completion (Promise Response)).

(** The error of a call that did not go through: what it threw, or what the
    promise it returned was rejected with. *)
Definition error_of (ev : Event) : option value :=
  match ev with
  | EvCreateAdminClient (Failed e)
  | EvCreateSessionClient (Failed e)
  | EvAccountCreate _ _ _ _ (Throw e)
  | EvCreateEmailPasswordSession _ _ (Throw e)
  | EvDeleteSession _ (Throw e)
  | EvAccountGet (Throw e)
  | EvFetch _ _ _ (Rejected e)
  | EvCreateOnDemandAuthorization (Throw e)
  | EvCreateFundingSource _ (Throw e)
  | EvDwollaPost _ _ (Throw e)
  | EvDwollaPost _ _ (Normal (Rejected e)) => Some e
  | _ => None
  end.

Definition failed (ev : Event) : bool :=
  match error_of ev with
  | Some _ => true
  | None => false
  end.

Record World : Type := mkWorld {
  cookies : gmap string Cookie;
  console : list LogEntry;
  trace : list Event;
  sdk_auth : list string;
  unhandled : list value
}.

Definition set_cookies (f : gmap string Cookie -> gmap string Cookie) (w : World) : World :=
  mkWorld (f (cookies w)) (console w) (trace w) (sdk_auth w) (unhandled w).

Definition add_log (l : LogEntry) (w : World) : World :=
  mkWorld (cookies w) (console w ++ [l]) (trace w) (sdk_auth w) (unhandled w).

Definition add_event (ev : Event) (w : World) : World :=
  mkWorld (cookies w) (console w) (trace w ++ [ev]) (sdk_auth w) (unhandled w).

Definition set_sdk_auth (vs : list string) (w : World) : World :=
  mkWorld (cookies w) (console w) (trace w) vs (unhandled w).

Definition add_unhandled (e : value) (w : World) : World :=
  mkWorld (cookies w) (console w) (trace w) (sdk_auth w) (unhandled w ++ [e]).

(** ** The monad of server-side code *)

Definition M (A : Type) : Type := World -> completion A * World.

Definition ret {A} (a : A) : M A := fun w => (Normal a, w).

Definition throw {A} (e : value) : M A := fun w => (Throw e, w).

Definition bind {A B} (c : M A) (k : A -> M B) : M B :=
  fun w =>
    match c w with
    | (Normal a, w') => k a w'
    | (Throw e, w') => (Throw e, w')
    end.

Declare Scope js_scope.
Delimit Scope js_scope with js.
Notation "x <- c ;; k" := (bind c (fun x => k))
  (at level 100, c at next level, right associativity) : js_scope.
Notation "c ;;; k" := (bind c (fun _ => k))
  (at level 100, right associativity) : js_scope.
Local Open Scope js_scope.

(** [try { body } catch (err) { handler }] *)
Definition try_catch {A} (body : M A) (handler : value -> M A) : M A :=
  fun w =>
    match body w with
    | (Normal a, w') => (Normal a, w')
    | (Throw e, w') => handler e w'
    end.

(** Lift a completion handed back by a helper into the monad. *)
Definition lift {A} (c : completion A) : M A := fun w => (c, w).

Definition outcome_of {A} (c : completion A) : Outcome :=
  match c with
  | Normal _ => Ok
  | Throw e => Failed e
  end.

(** An external call that is awaited on the spot: the outside answers in the
    world as it stands when the call is made, the call and its answer go to
    the transcript, and a failure surfaces as a throw at the [await]. *)
Definition call {A} (ev : completion A -> Event) (answer : World -> completion A) : M A :=
  fun w => (answer w, add_event (ev (answer w)) w).

(** An external call that hands back a promise without being awaited. *)
Definition request {A} (ev : Promise A -> Event) (answer : World -> Promise A)
  : M (Promise A) :=
  fun w => (Normal (answer w), add_event (ev (answer w)) w).

Definition console_log (args : list value) : M unit :=
  fun w => (Normal tt, add_log (mkLog LevelLog args) w).

Definition console_error (args : list value) : M unit :=
  fun w => (Normal tt, add_log (mkLog LevelError args) w).

(** [cookies().set(name, value, options)].  The actions run as server
    actions, where the request's cookie store is writable: setting and
    deleting a cookie do not throw. *)
Definition cookies_set (name : string) (c : Cookie) : M unit :=
  fun w => (Normal tt, add_event (EvCookieSet name c) (set_cookies (insert name c) w)).

(** [cookies().delete(name)] *)
Definition cookies_delete (name : string) : M unit :=
  fun w => (Normal tt, add_event (EvCookieDelete name) (set_cookies (delete name) w)).

(** [await p] *)
Definition await {A} (p : Promise A) : M A :=
  match p with
  | Fulfilled a => ret a
  | Rejected e => throw e
  end.

(** [p.then(f)]: the callback runs only when [p] fulfils; a rejection of [p],
    or a throw of the callback, rejects the derived promise.  Attaching a
    callback never throws at the call site.  What the callback does is
    recorded where it is attached: no modelled function does anything between
    attaching a callback and returning, so the later turn of the event loop
    in which the callback really runs is not told apart. *)
Definition promise_then {A B} (p : Promise A) (f : A -> M B) : M (Promise B) :=
  match p with
  | Fulfilled a =>
      fun w =>
        match f a w with
        | (Normal b, w') => (Normal (Fulfilled b), w')
        | (Throw e, w') => (Normal (Rejected e), w')
        end
  | Rejected e => ret (Rejected e)
  end.

(** [p.catch(h)] *)
Definition promise_catch {A} (p : Promise A) (h : value -> M A) : M (Promise A) :=
  match p with
  | Fulfilled a => ret (Fulfilled a)
  | Rejected e =>
      fun w =>
        match h e w with
        | (Normal b, w') => (Normal (Fulfilled b), w')
        | (Throw e', w') => (Normal (Rejected e'), w')
        end
  end.

(** An expression statement whose value is a promise that is neither awaited,
    returned nor stored: if it rejects, no handler is there and the runtime
    reports an unhandled rejection.  The enclosing block goes on normally. *)
Definition floating {A} (p : Promise A) : M unit :=
  match p with
  | Fulfilled _ => ret tt
  | Rejected e => fun w => (Normal tt, add_unhandled e w)
  end.

(** An [async] function: its body's completion settles the promise it hands
    to the caller. *)
Definition async {A} (body : M A) (w : World) : Promise A * World :=
  match body w with
  | (Normal a, w') => (Fulfilled a, w')
  | (Throw e, w') => (Rejected e, w')
  end.

(** The events a run added to the transcript. *)
Definition since (w w' : World) : list Event :=
  drop (length (trace w)) (trace w').

(** ** The outside *)

(** Everything this code calls and does not define: the process environment,
    the two client factories of [../appwrite], [parseStringify] of
    [../utils], the identity provider's [account] methods, the generated
    client's [core.fetch], and the payment-network helpers
    [createOnDemandAuthorization], [createFundingSource] and
    [dwollaClient.post].  Each answer may depend on the whole world at the
    time of the call, the cookie jar and the transcript so far included; the
    outside cannot write to the cookie jar or to the console. *)
Record Env (Account : Type) : Type := mkEnv {
  CHECKBOOK_KEY : option string;
  CHECKBOOK_SECRET : option string;
  createAdminClient : World -> completion Account;
  createSessionClient : World -> completion Account;
  parseStringify : forall A : Type, A -> completion value;
  ID_unique : World -> string;
  account_create :
    Account -> string -> string -> string -> string -> World -> completion value;
  account_createEmailPasswordSession :
    Account -> string -> string -> World -> completion Session;
  account_deleteSession : Account -> string -> World -> completion value;
  account_get : Account -> World -> completion value;
  core_fetch_answer :
    string -> HttpMethod -> list value -> World -> Promise FetchResponse;
  createOnDemandAuthorization : World -> completion value;
  createFundingSource : FundingSourceOptions -> World -> completion value;
  dwollaClient_post : string -> value -> World -> completion (Promise Response)
}.
Arguments CHECKBOOK_KEY {Account} e.
Arguments CHECKBOOK_SECRET {Account} e.
Arguments createAdminClient {Account} e w.
Arguments createSessionClient {Account} e w.
Arguments parseStringify {Account} e {A} a.
Arguments ID_unique {Account} e w.
Arguments account_create {Account} e acct userId email password name w.
Arguments account_createEmailPasswordSession {Account} e acct email password w.
Arguments account_deleteSession {Account} e acct sessionId w.
Arguments account_get {Account} e acct w.
Arguments core_fetch_answer {Account} e path method args w.
Arguments createOnDemandAuthorization {Account} e w.
Arguments createFundingSource {Account} e opts w.
Arguments dwollaClient_post {Account} e path body w.

(** ** [src/lib/actions/user.actions.ts] *)

Module UserActions.
Section WithEnv.
Context {Account : Type} (env : Env Account).

(** Everything inside the [try] of [getUserInfo] is commented out: the block
    is empty and the function falls off its end. *)
Definition getUserInfo (userId : string) : World -> Promise value * World :=
  async (
    try_catch (ret tt) (fun error => console_log [error]) ;;;
    ret VUndefined).

(** The options object both [signIn] and [signUp] pass to
    [cookies().set]: path, httpOnly, sameSite and secure, nothing else. *)
Definition session_cookie (value : string) : Cookie :=
  {| cookie_value := value;
     cookie_path := Some "/";
     cookie_httpOnly := Some true;
     cookie_sameSite := Some SameSiteStrict;
     cookie_secure := Some true;
     cookie_domain := None;
     cookie_maxAge := None;
     cookie_expires := None |}.

Definition signIn (email password : string) : World -> Promise value * World :=
  async (try_catch
    (account <- call (fun r => EvCreateAdminClient (outcome_of r))
                     (createAdminClient env) ;;
     session <- call (EvCreateEmailPasswordSession email password)
                     (account_createEmailPasswordSession env account email password) ;;
     cookies_set "appwrite-session" (session_cookie (secret session)) ;;;
     lift (parseStringify env session))
    (fun error =>
       console_error [VStr "Error"; error] ;;;
       ret VUndefined)).

Record SignUpParams : Type := mkSignUpParams {
  firstName : string;
  lastName : string;
  address1 : string;
  city : string;
  state : string;
  postalCode : string;
  dateOfBirth : string;
  ssn : string;
  email : string;
  password : string
}.

Definition signUp (userData : SignUpParams) : World -> Promise value * World :=
  let email := email userData in
  let password := password userData in
  let firstName := firstName userData in
  let lastName := lastName userData in
  async (try_catch
    (account <- call (fun r => EvCreateAdminClient (outcome_of r))
                     (createAdminClient env) ;;
     id <- (fun w => (Normal (ID_unique env w), w)) ;;
     let name := firstName ++ " " ++ lastName in
     newUserAccount <- call (EvAccountCreate id email password name)
                            (account_create env account id email password name) ;;
     session <- call (EvCreateEmailPasswordSession email password)
                     (account_createEmailPasswordSession env account email password) ;;
     cookies_set "appwrite-session" (session_cookie (secret session)) ;;;
     lift (parseStringify env newUserAccount))
    (fun error =>
       console_error [VStr "Error"; error] ;;;
       ret VUndefined)).

Definition logoutAccount : World -> Promise value * World :=
  async (try_catch
    (account <- call (fun r => EvCreateSessionClient (outcome_of r))
                     (createSessionClient env) ;;
     cookies_delete "appwrite-session" ;;;
     response <- call (EvDeleteSession "current")
                      (account_deleteSession env account "current") ;;
     ret (VBool true))
    (fun error =>
       console_error [VStr "Error"; error] ;;;
       ret VUndefined)).

Definition getLoggedInUser : World -> Promise value * World :=
  async (try_catch
    (account <- call (fun r => EvCreateSessionClient (outcome_of r))
                     (createSessionClient env) ;;
     result <- call EvAccountGet (account_get env account) ;;
     lift (parseStringify env result))
    (fun error =>
       console_log [error] ;;;
       ret VNull)).

End WithEnv.
End UserActions.

(** ** [src/.api/apis/checkbook-docs/index.ts] *)

(** The generated [SDK] class.  [core] is the [APICore] of the [api]
    package: [core.setAuth] stores the credentials it is given, and
    [core.fetch] is an asynchronous method, so whatever goes wrong with a
    request shows as a rejection of the promise it returns.  The
    configuration methods [config] and [server] neither issue a request nor
    are read by any action below, and are left out. *)
Module SDK.
Section WithEnv.
Context {Account : Type} (env : Env Account).

(** [this.core.fetch(path, method, ...args)] *)
Definition core_fetch (path : string) (method : HttpMethod) (args : list value)
  : M (Promise FetchResponse) :=
  request (EvFetch path method args) (core_fetch_answer env path method args).

(** [auth(...values) { this.core.setAuth(...values); return this; }] *)
Definition auth (values : list string) : M unit :=
  fun w => (Normal tt, set_sdk_auth values w).

Definition getBanks : M (Promise FetchResponse) :=
  core_fetch "/v3/account/bank" GET [].

Definition postBank (body : value) : M (Promise FetchResponse) :=
  core_fetch "/v3/account/bank" POST [body].

Definition postBankIav (body : value) : M (Promise FetchResponse) :=
  core_fetch "/v3/account/bank/iav" POST [body].

Definition postBankPlaid (body : value) : M (Promise FetchResponse) :=
  core_fetch "/v3/account/bank/iav/plaid" POST [body].

Definition getBankInstitutions : M (Promise FetchResponse) :=
  core_fetch "/v3/account/bank/institutions" GET [].

Definition postBankRelease (body : value) : M (Promise FetchResponse) :=
  core_fetch "/v3/account/bank/release" POST [body].

Definition postBankVerify (body : value) : M (Promise FetchResponse) :=
  core_fetch "/v3/account/bank/verify" POST [body].

Definition deleteBank (metadata : value) : M (Promise FetchResponse) :=
  core_fetch "/v3/account/bank/{bank_id}" DELETE [metadata].

Definition putBank (body metadata : value) : M (Promise FetchResponse) :=
  core_fetch "/v3/account/bank/{bank_id}" PUT [body; metadata].

Definition getCards : M (Promise FetchResponse) :=
  core_fetch "/v3/account/card" GET [].

Definition postCard (body : value) : M (Promise FetchResponse) :=
  core_fetch "/v3/account/card" POST [body].

Definition deleteCard (metadata : value) : M (Promise FetchResponse) :=
  core_fetch "/v3/account/card/{card_id}" DELETE [metadata].

Definition putCard (body metadata : value) : M (Promise FetchResponse) :=
  core_fetch "/v3/account/card/{card_id}" PUT [body; metadata].

Definition get_paypal : M (Promise FetchResponse) :=
  core_fetch "/v3/account/paypal" GET [].

Definition add_paypal (body : value) : M (Promise FetchResponse) :=
  core_fetch "/v3/account/paypal" POST [body].

Definition remove_paypal (metadata : value) : M (Promise FetchResponse) :=
  core_fetch "/v3/account/paypal/{paypal_id}" DELETE [metadata].

Definition put_paypal (body metadata : value) : M (Promise FetchResponse) :=
  core_fetch "/v3/account/paypal/{paypal_id}" PUT [body; metadata].

Definition getVccs : M (Promise FetchResponse) :=
  core_fetch "/v3/account/vcc" GET [].

Definition postVcc (body : value) : M (Promise FetchResponse) :=
  core_fetch "/v3/account/vcc" POST [body].

Definition deleteVcc (metadata : value) : M (Promise FetchResponse) :=
  core_fetch "/v3/account/vcc/{vcc_id}" DELETE [metadata].

Definition putVcc (body metadata : value) : M (Promise FetchResponse) :=
  core_fetch "/v3/account/vcc/{vcc_id}" PUT [body; metadata].

Definition getVccTransaction (metadata : value) : M (Promise FetchResponse) :=
  core_fetch "/v3/account/vcc/{vcc_id}/transaction" GET [metadata].

Definition get_venmo : M (Promise FetchResponse) :=
  core_fetch "/v3/account/venmo" GET [].

Definition add_venmo (body : value) : M (Promise FetchResponse) :=
  core_fetch "/v3/account/venmo" POST [body].

Definition remove_venmo (metadata : value) : M (Promise FetchResponse) :=
  core_fetch "/v3/account/venmo/{venmo_id}" DELETE [metadata].

Definition put_venmo (body metadata : value) : M (Promise FetchResponse) :=
  core_fetch "/v3/account/venmo/{venmo_id}" PUT [body; metadata].

Definition add_wallet (body : value) : M (Promise FetchResponse) :=
  core_fetch "/v3/account/wallet" POST [body].

Definition get_zelle : M (Promise FetchResponse) :=
  core_fetch "/v3/account/zelle" GET [].

Definition add_zelle (body : value) : M (Promise FetchResponse) :=
  core_fetch "/v3/account/zelle" POST [body].

Definition put_zelle (body metadata : value) : M (Promise FetchResponse) :=
  core_fetch "/v3/account/zelle/{account_id}" PUT [body; metadata].

Definition remove_zelle (metadata : value) : M (Promise FetchResponse) :=
  core_fetch "/v3/account/zelle/{zelle_id}" DELETE [metadata].

Definition getApprovalChecks (metadata : value) : M (Promise FetchResponse) :=
  core_fetch "/v3/approval" GET [metadata].

Definition postApprovalDigital (body : value) : M (Promise FetchResponse) :=
  core_fetch "/v3/approval/digital" POST [body].

Definition postApprovalMulti (body : value) : M (Promise FetchResponse) :=
  core_fetch "/v3/approval/multi" POST [body].

Definition postApprovalPhysical (body : value) : M (Promise FetchResponse) :=
  core_fetch "/v3/approval/physical" POST [body].

Definition postApprovalRelease (body : value) : M (Promise FetchResponse) :=
  core_fetch "/v3/approval/release" POST [body].

Definition deleteApprovalCheck (metadata : value) : M (Promise FetchResponse) :=
  core_fetch "/v3/approval/{lockbox_id}" DELETE [metadata].

Definition getApprovalCheck (metadata : value) : M (Promise FetchResponse) :=
  core_fetch "/v3/approval/{lockbox_id}" GET [metadata].

Definition putApprovalCheck (body metadata : value) : M (Promise FetchResponse) :=
  core_fetch "/v3/approval/{lockbox_id}" PUT [body; metadata].

Definition getApprovalAttachment (metadata : value) : M (Promise FetchResponse) :=
  core_fetch "/v3/approval/{lockbox_id}/attachment" GET [metadata].

Definition getChecks (metadata : value) : M (Promise FetchResponse) :=
  core_fetch "/v3/check" GET [metadata].

Definition postCheckDeposit (body metadata : value) : M (Promise FetchResponse) :=
  core_fetch "/v3/check/deposit/{check_id}" POST [body; metadata].

Definition postCheckDigital (body : value) : M (Promise FetchResponse) :=
  core_fetch "/v3/check/digital" POST [body].

Definition postCheckEndorse (body metadata : value) : M (Promise FetchResponse) :=
  core_fetch "/v3/check/endorse/{check_id}" POST [body; metadata].

Definition postCheckMulti (body : value) : M (Promise FetchResponse) :=
  core_fetch "/v3/check/multi" POST [body].

Definition postCheckPhysical (body : value) : M (Promise FetchResponse) :=
  core_fetch "/v3/check/physical" POST [body].

Definition postCheckPreview (body : value) : M (Promise FetchResponse) :=
  core_fetch "/v3/check/preview" POST [body].

Definition postCheckPrint (metadata : value) : M (Promise FetchResponse) :=
  core_fetch "/v3/check/print/{check_id}" POST [metadata].

Definition post_check_webhook (body metadata : value) : M (Promise FetchResponse) :=
  core_fetch "/v3/check/webhook/{check_id}" PUT [body; metadata].

Definition deleteCheck (metadata : value) : M (Promise FetchResponse) :=
  core_fetch "/v3/check/{check_id}" DELETE [metadata].

Definition getCheck (metadata : value) : M (Promise FetchResponse) :=
  core_fetch "/v3/check/{check_id}" GET [metadata].

Definition getCheckAttachment (metadata : value) : M (Promise FetchResponse) :=
  core_fetch "/v3/check/{check_id}/attachment" GET [metadata].

Definition getCheckDeposit (metadata : value) : M (Promise FetchResponse) :=
  core_fetch "/v3/check/{check_id}/deposit" GET [metadata].

Definition getCheckFail (metadata : value) : M (Promise FetchResponse) :=
  core_fetch "/v3/check/{check_id}/fail" GET [metadata].

Definition getCheckTracking (metadata : value) : M (Promise FetchResponse) :=
  core_fetch "/v3/check/{check_id}/tracking" GET [metadata].

Definition getDirectory (metadata : value) : M (Promise FetchResponse) :=
  core_fetch "/v3/directory" GET [metadata].

Definition createDirectory (body : value) : M (Promise FetchResponse) :=
  core_fetch "/v3/directory" POST [body].

Definition deleteDirectory (metadata : value) : M (Promise FetchResponse) :=
  core_fetch "/v3/directory/{directory_id}" DELETE [metadata].

Definition updateDirectory (body metadata : value) : M (Promise FetchResponse) :=
  core_fetch "/v3/directory/{directory_id}" PUT [body; metadata].

Definition createDirectoryBank (body metadata : value) : M (Promise FetchResponse) :=
  core_fetch "/v3/directory/{directory_id}/account/bank" POST [body; metadata].

Definition createDirectoryCard (body metadata : value) : M (Promise FetchResponse) :=
  core_fetch "/v3/directory/{directory_id}/account/card" POST [body; metadata].

Definition deleteDirectoryAccount (metadata : value) : M (Promise FetchResponse) :=
  core_fetch "/v3/directory/{directory_id}/account/{account_id}" DELETE [metadata].

Definition getInvoices (metadata : value) : M (Promise FetchResponse) :=
  core_fetch "/v3/invoice" GET [metadata].

Definition postInvoice (body : value) : M (Promise FetchResponse) :=
  core_fetch "/v3/invoice" POST [body].

Definition postInvoicePayment (body : value) : M (Promise FetchResponse) :=
  core_fetch "/v3/invoice/payment" POST [body].

Definition deleteInvoice (metadata : value) : M (Promise FetchResponse) :=
  core_fetch "/v3/invoice/{invoice_id}" DELETE [metadata].

Definition getInvoice (metadata : value) : M (Promise FetchResponse) :=
  core_fetch "/v3/invoice/{invoice_id}" GET [metadata].

Definition getInvoiceAttachment (metadata : value) : M (Promise FetchResponse) :=
  core_fetch "/v3/invoice/{invoice_id}/attachment" GET [metadata].

Definition getSubscriptions (metadata : value) : M (Promise FetchResponse) :=
  core_fetch "/v3/subscription" GET [metadata].

Definition postSubscriptionCheck (body : value) : M (Promise FetchResponse) :=
  core_fetch "/v3/subscription/check" POST [body].

Definition postSubscriptionInvoice (body : value) : M (Promise FetchResponse) :=
  core_fetch "/v3/subscription/invoice" POST [body].

Definition deleteSubscription (metadata : value) : M (Promise FetchResponse) :=
  core_fetch "/v3/subscription/{subscription_id}" DELETE [metadata].

Definition getSubscription (metadata : value) : M (Promise FetchResponse) :=
  core_fetch "/v3/subscription/{subscription_id}" GET [metadata].

Definition putSubscription (body metadata : value) : M (Promise FetchResponse) :=
  core_fetch "/v3/subscription/{subscription_id}" PUT [body; metadata].

Definition getUser : M (Promise FetchResponse) :=
  core_fetch "/v3/user" GET [].

Definition postUser (body : value) : M (Promise FetchResponse) :=
  core_fetch "/v3/user" POST [body].

Definition putUser (body : value) : M (Promise FetchResponse) :=
  core_fetch "/v3/user" PUT [body].

Definition getApiKeys : M (Promise FetchResponse) :=
  core_fetch "/v3/user/api_key" GET [].

Definition newApiKey (body : value) : M (Promise FetchResponse) :=
  core_fetch "/v3/user/api_key" POST [body].

Definition deleteApiKey (metadata : value) : M (Promise FetchResponse) :=
  core_fetch "/v3/user/api_key/{key_id}" DELETE [metadata].

Definition getUsers (metadata : value) : M (Promise FetchResponse) :=
  core_fetch "/v3/user/list" GET [metadata].

Definition postUserSignature (body : value) : M (Promise FetchResponse) :=
  core_fetch "/v3/user/signature" POST [body].

Definition deleteUser (metadata : value) : M (Promise FetchResponse) :=
  core_fetch "/v3/user/{user_id}" DELETE [metadata].

End WithEnv.

(** The operations of the client, as names. *)
Inductive Operation : Type :=
| OpGetBanks
| OpPostBank
| OpPostBankIav
| OpPostBankPlaid
| OpGetBankInstitutions
| OpPostBankRelease
| OpPostBankVerify
| OpDeleteBank
| OpPutBank
| OpGetCards
| OpPostCard
| OpDeleteCard
| OpPutCard
| OpGet_paypal
| OpAdd_paypal
| OpRemove_paypal
| OpPut_paypal
| OpGetVccs
| OpPostVcc
| OpDeleteVcc
| OpPutVcc
| OpGetVccTransaction
| OpGet_venmo
| OpAdd_venmo
| OpRemove_venmo
| OpPut_venmo
| OpAdd_wallet
| OpGet_zelle
| OpAdd_zelle
| OpPut_zelle
| OpRemove_zelle
| OpGetApprovalChecks
| OpPostApprovalDigital
| OpPostApprovalMulti
| OpPostApprovalPhysical
| OpPostApprovalRelease
| OpDeleteApprovalCheck
| OpGetApprovalCheck
| OpPutApprovalCheck
| OpGetApprovalAttachment
| OpGetChecks
| OpPostCheckDeposit
| OpPostCheckDigital
| OpPostCheckEndorse
| OpPostCheckMulti
| OpPostCheckPhysical
| OpPostCheckPreview
| OpPostCheckPrint
| OpPost_check_webhook
| OpDeleteCheck
| OpGetCheck
| OpGetCheckAttachment
| OpGetCheckDeposit
| OpGetCheckFail
| OpGetCheckTracking
| OpGetDirectory
| OpCreateDirectory
| OpDeleteDirectory
| OpUpdateDirectory
| OpCreateDirectoryBank
| OpCreateDirectoryCard
| OpDeleteDirectoryAccount
| OpGetInvoices
| OpPostInvoice
| OpPostInvoicePayment
| OpDeleteInvoice
| OpGetInvoice
| OpGetInvoiceAttachment
| OpGetSubscriptions
| OpPostSubscriptionCheck
| OpPostSubscriptionInvoice
| OpDeleteSubscription
| OpGetSubscription
| OpPutSubscription
| OpGetUser
| OpPostUser
| OpPutUser
| OpGetApiKeys
| OpNewApiKey
| OpDeleteApiKey
| OpGetUsers
| OpPostUserSignature
| OpDeleteUser.

(** One invocation of an operation with its arguments. *)
Inductive Call : Type :=
| CallGetBanks
| CallPostBank (body : value)
| CallPostBankIav (body : value)
| CallPostBankPlaid (body : value)
| CallGetBankInstitutions
| CallPostBankRelease (body : value)
| CallPostBankVerify (body : value)
| CallDeleteBank (metadata : value)
| CallPutBank (body metadata : value)
| CallGetCards
| CallPostCard (body : value)
| CallDeleteCard (metadata : value)
| CallPutCard (body metadata : value)
| CallGet_paypal
| CallAdd_paypal (body : value)
| CallRemove_paypal (metadata : value)
| CallPut_paypal (body metadata : value)
| CallGetVccs
| CallPostVcc (body : value)
| CallDeleteVcc (metadata : value)
| CallPutVcc (body metadata : value)
| CallGetVccTransaction (metadata : value)
| CallGet_venmo
| CallAdd_venmo (body : value)
| CallRemove_venmo (metadata : value)
| CallPut_venmo (body metadata : value)
| CallAdd_wallet (body : value)
| CallGet_zelle
| CallAdd_zelle (body : value)
| CallPut_zelle (body metadata : value)
| CallRemove_zelle (metadata : value)
| CallGetApprovalChecks (metadata : value)
| CallPostApprovalDigital (body : value)
| CallPostApprovalMulti (body : value)
| CallPostApprovalPhysical (body : value)
| CallPostApprovalRelease (body : value)
| CallDeleteApprovalCheck (metadata : value)
| CallGetApprovalCheck (metadata : value)
| CallPutApprovalCheck (body metadata : value)
| CallGetApprovalAttachment (metadata : value)
| CallGetChecks (metadata : value)
| CallPostCheckDeposit (body metadata : value)
| CallPostCheckDigital (body : value)
| CallPostCheckEndorse (body metadata : value)
| CallPostCheckMulti (body : value)
| CallPostCheckPhysical (body : value)
| CallPostCheckPreview (body : value)
| CallPostCheckPrint (metadata : value)
| CallPost_check_webhook (body metadata : value)
| CallDeleteCheck (metadata : value)
| CallGetCheck (metadata : value)
| CallGetCheckAttachment (metadata : value)
| CallGetCheckDeposit (metadata : value)
| CallGetCheckFail (metadata : value)
| CallGetCheckTracking (metadata : value)
| CallGetDirectory (metadata : value)
| CallCreateDirectory (body : value)
| CallDeleteDirectory (metadata : value)
| CallUpdateDirectory (body metadata : value)
| CallCreateDirectoryBank (body metadata : value)
| CallCreateDirectoryCard (body metadata : value)
| CallDeleteDirectoryAccount (metadata : value)
| CallGetInvoices (metadata : value)
| CallPostInvoice (body : value)
| CallPostInvoicePayment (body : value)
| CallDeleteInvoice (metadata : value)
| CallGetInvoice (metadata : value)
| CallGetInvoiceAttachment (metadata : value)
| CallGetSubscriptions (metadata : value)
| CallPostSubscriptionCheck (body : value)
| CallPostSubscriptionInvoice (body : value)
| CallDeleteSubscription (metadata : value)
| CallGetSubscription (metadata : value)
| CallPutSubscription (body metadata : value)
| CallGetUser
| CallPostUser (body : value)
| CallPutUser (body : value)
| CallGetApiKeys
| CallNewApiKey (body : value)
| CallDeleteApiKey (metadata : value)
| CallGetUsers (metadata : value)
| CallPostUserSignature (body : value)
| CallDeleteUser (metadata : value).

Definition op_of (c : Call) : Operation :=
match c with
| CallGetBanks => OpGetBanks
| CallPostBank _ => OpPostBank
| CallPostBankIav _ => OpPostBankIav
| CallPostBankPlaid _ => OpPostBankPlaid
| CallGetBankInstitutions => OpGetBankInstitutions
| CallPostBankRelease _ => OpPostBankRelease
| CallPostBankVerify _ => OpPostBankVerify
| CallDeleteBank _ => OpDeleteBank
| CallPutBank _ _ => OpPutBank
| CallGetCards => OpGetCards
| CallPostCard _ => OpPostCard
| CallDeleteCard _ => OpDeleteCard
| CallPutCard _ _ => OpPutCard
| CallGet_paypal => OpGet_paypal
| CallAdd_paypal _ => OpAdd_paypal
| CallRemove_paypal _ => OpRemove_paypal
| CallPut_paypal _ _ => OpPut_paypal
| CallGetVccs => OpGetVccs
| CallPostVcc _ => OpPostVcc
| CallDeleteVcc _ => OpDeleteVcc
| CallPutVcc _ _ => OpPutVcc
| CallGetVccTransaction _ => OpGetVccTransaction
| CallGet_venmo => OpGet_venmo
| CallAdd_venmo _ => OpAdd_venmo
| CallRemove_venmo _ => OpRemove_venmo
| CallPut_venmo _ _ => OpPut_venmo
| CallAdd_wallet _ => OpAdd_wallet
| CallGet_zelle => OpGet_zelle
| CallAdd_zelle _ => OpAdd_zelle
| CallPut_zelle _ _ => OpPut_zelle
| CallRemove_zelle _ => OpRemove_zelle
| CallGetApprovalChecks _ => OpGetApprovalChecks
| CallPostApprovalDigital _ => OpPostApprovalDigital
| CallPostApprovalMulti _ => OpPostApprovalMulti
| CallPostApprovalPhysical _ => OpPostApprovalPhysical
| CallPostApprovalRelease _ => OpPostApprovalRelease
| CallDeleteApprovalCheck _ => OpDeleteApprovalCheck
| CallGetApprovalCheck _ => OpGetApprovalCheck
| CallPutApprovalCheck _ _ => OpPutApprovalCheck
| CallGetApprovalAttachment _ => OpGetApprovalAttachment
| CallGetChecks _ => OpGetChecks
| CallPostCheckDeposit _ _ => OpPostCheckDeposit
| CallPostCheckDigital _ => OpPostCheckDigital
| CallPostCheckEndorse _ _ => OpPostCheckEndorse
| CallPostCheckMulti _ => OpPostCheckMulti
| CallPostCheckPhysical _ => OpPostCheckPhysical
| CallPostCheckPreview _ => OpPostCheckPreview
| CallPostCheckPrint _ => OpPostCheckPrint
| CallPost_check_webhook _ _ => OpPost_check_webhook
| CallDeleteCheck _ => OpDeleteCheck
| CallGetCheck _ => OpGetCheck
| CallGetCheckAttachment _ => OpGetCheckAttachment
| CallGetCheckDeposit _ => OpGetCheckDeposit
| CallGetCheckFail _ => OpGetCheckFail
| CallGetCheckTracking _ => OpGetCheckTracking
| CallGetDirectory _ => OpGetDirectory
| CallCreateDirectory _ => OpCreateDirectory
| CallDeleteDirectory _ => OpDeleteDirectory
| CallUpdateDirectory _ _ => OpUpdateDirectory
| CallCreateDirectoryBank _ _ => OpCreateDirectoryBank
| CallCreateDirectoryCard _ _ => OpCreateDirectoryCard
| CallDeleteDirectoryAccount _ => OpDeleteDirectoryAccount
| CallGetInvoices _ => OpGetInvoices
| CallPostInvoice _ => OpPostInvoice
| CallPostInvoicePayment _ => OpPostInvoicePayment
| CallDeleteInvoice _ => OpDeleteInvoice
| CallGetInvoice _ => OpGetInvoice
| CallGetInvoiceAttachment _ => OpGetInvoiceAttachment
| CallGetSubscriptions _ => OpGetSubscriptions
| CallPostSubscriptionCheck _ => OpPostSubscriptionCheck
| CallPostSubscriptionInvoice _ => OpPostSubscriptionInvoice
| CallDeleteSubscription _ => OpDeleteSubscription
| CallGetSubscription _ => OpGetSubscription
| CallPutSubscription _ _ => OpPutSubscription
| CallGetUser => OpGetUser
| CallPostUser _ => OpPostUser
| CallPutUser _ => OpPutUser
| CallGetApiKeys => OpGetApiKeys
| CallNewApiKey _ => OpNewApiKey
| CallDeleteApiKey _ => OpDeleteApiKey
| CallGetUsers _ => OpGetUsers
| CallPostUserSignature _ => OpPostUserSignature
| CallDeleteUser _ => OpDeleteUser
end.

(** The arguments of an invocation, in the order they were given. *)
Definition call_args (c : Call) : list value :=
match c with
| CallGetBanks => []
| CallPostBank body => [body]
| CallPostBankIav body => [body]
| CallPostBankPlaid body => [body]
| CallGetBankInstitutions => []
| CallPostBankRelease body => [body]
| CallPostBankVerify body => [body]
| CallDeleteBank metadata => [metadata]
| CallPutBank body metadata => [body; metadata]
| CallGetCards => []
| CallPostCard body => [body]
| CallDeleteCard metadata => [metadata]
| CallPutCard body metadata => [body; metadata]
| CallGet_paypal => []
| CallAdd_paypal body => [body]
| CallRemove_paypal metadata => [metadata]
| CallPut_paypal body metadata => [body; metadata]
| CallGetVccs => []
| CallPostVcc body => [body]
| CallDeleteVcc metadata => [metadata]
| CallPutVcc body metadata => [body; metadata]
| CallGetVccTransaction metadata => [metadata]
| CallGet_venmo => []
| CallAdd_venmo body => [body]
| CallRemove_venmo metadata => [metadata]
| CallPut_venmo body metadata => [body; metadata]
| CallAdd_wallet body => [body]
| CallGet_zelle => []
| CallAdd_zelle body => [body]
| CallPut_zelle body metadata => [body; metadata]
| CallRemove_zelle metadata => [metadata]
| CallGetApprovalChecks metadata => [metadata]
| CallPostApprovalDigital body => [body]
| CallPostApprovalMulti body => [body]
| CallPostApprovalPhysical body => [body]
| CallPostApprovalRelease body => [body]
| CallDeleteApprovalCheck metadata => [metadata]
| CallGetApprovalCheck metadata => [metadata]
| CallPutApprovalCheck body metadata => [body; metadata]
| CallGetApprovalAttachment metadata => [metadata]
| CallGetChecks metadata => [metadata]
| CallPostCheckDeposit body metadata => [body; metadata]
| CallPostCheckDigital body => [body]
| CallPostCheckEndorse body metadata => [body; metadata]
| CallPostCheckMulti body => [body]
| CallPostCheckPhysical body => [body]
| CallPostCheckPreview body => [body]
| CallPostCheckPrint metadata => [metadata]
| CallPost_check_webhook body metadata => [body; metadata]
| CallDeleteCheck metadata => [metadata]
| CallGetCheck metadata => [metadata]
| CallGetCheckAttachment metadata => [metadata]
| CallGetCheckDeposit metadata => [metadata]
| CallGetCheckFail metadata => [metadata]
| CallGetCheckTracking metadata => [metadata]
| CallGetDirectory metadata => [metadata]
| CallCreateDirectory body => [body]
| CallDeleteDirectory metadata => [metadata]
| CallUpdateDirectory body metadata => [body; metadata]
| CallCreateDirectoryBank body metadata => [body; metadata]
| CallCreateDirectoryCard body metadata => [body; metadata]
| CallDeleteDirectoryAccount metadata => [metadata]
| CallGetInvoices metadata => [metadata]
| CallPostInvoice body => [body]
| CallPostInvoicePayment body => [body]
| CallDeleteInvoice metadata => [metadata]
| CallGetInvoice metadata => [metadata]
| CallGetInvoiceAttachment metadata => [metadata]
| CallGetSubscriptions metadata => [metadata]
| CallPostSubscriptionCheck body => [body]
| CallPostSubscriptionInvoice body => [body]
| CallDeleteSubscription metadata => [metadata]
| CallGetSubscription metadata => [metadata]
| CallPutSubscription body metadata => [body; metadata]
| CallGetUser => []
| CallPostUser body => [body]
| CallPutUser body => [body]
| CallGetApiKeys => []
| CallNewApiKey body => [body]
| CallDeleteApiKey metadata => [metadata]
| CallGetUsers metadata => [metadata]
| CallPostUserSignature body => [body]
| CallDeleteUser metadata => [metadata]
end.

(** The path template and the HTTP method of each operation. *)
Definition route (op : Operation) : string * HttpMethod :=
match op with
| OpGetBanks => ("/v3/account/bank", GET)
| OpPostBank => ("/v3/account/bank", POST)
| OpPostBankIav => ("/v3/account/bank/iav", POST)
| OpPostBankPlaid => ("/v3/account/bank/iav/plaid", POST)
| OpGetBankInstitutions => ("/v3/account/bank/institutions", GET)
| OpPostBankRelease => ("/v3/account/bank/release", POST)
| OpPostBankVerify => ("/v3/account/bank/verify", POST)
| OpDeleteBank => ("/v3/account/bank/{bank_id}", DELETE)
| OpPutBank => ("/v3/account/bank/{bank_id}", PUT)
| OpGetCards => ("/v3/account/card", GET)
| OpPostCard => ("/v3/account/card", POST)
| OpDeleteCard => ("/v3/account/card/{card_id}", DELETE)
| OpPutCard => ("/v3/account/card/{card_id}", PUT)
| OpGet_paypal => ("/v3/account/paypal", GET)
| OpAdd_paypal => ("/v3/account/paypal", POST)
| OpRemove_paypal => ("/v3/account/paypal/{paypal_id}", DELETE)
| OpPut_paypal => ("/v3/account/paypal/{paypal_id}", PUT)
| OpGetVccs => ("/v3/account/vcc", GET)
| OpPostVcc => ("/v3/account/vcc", POST)
| OpDeleteVcc => ("/v3/account/vcc/{vcc_id}", DELETE)
| OpPutVcc => ("/v3/account/vcc/{vcc_id}", PUT)
| OpGetVccTransaction => ("/v3/account/vcc/{vcc_id}/transaction", GET)
| OpGet_venmo => ("/v3/account/venmo", GET)
| OpAdd_venmo => ("/v3/account/venmo", POST)
| OpRemove_venmo => ("/v3/account/venmo/{venmo_id}", DELETE)
| OpPut_venmo => ("/v3/account/venmo/{venmo_id}", PUT)
| OpAdd_wallet => ("/v3/account/wallet", POST)
| OpGet_zelle => ("/v3/account/zelle", GET)
| OpAdd_zelle => ("/v3/account/zelle", POST)
| OpPut_zelle => ("/v3/account/zelle/{account_id}", PUT)
| OpRemove_zelle => ("/v3/account/zelle/{zelle_id}", DELETE)
| OpGetApprovalChecks => ("/v3/approval", GET)
| OpPostApprovalDigital => ("/v3/approval/digital", POST)
| OpPostApprovalMulti => ("/v3/approval/multi", POST)
| OpPostApprovalPhysical => ("/v3/approval/physical", POST)
| OpPostApprovalRelease => ("/v3/approval/release", POST)
| OpDeleteApprovalCheck => ("/v3/approval/{lockbox_id}", DELETE)
| OpGetApprovalCheck => ("/v3/approval/{lockbox_id}", GET)
| OpPutApprovalCheck => ("/v3/approval/{lockbox_id}", PUT)
| OpGetApprovalAttachment => ("/v3/approval/{lockbox_id}/attachment", GET)
| OpGetChecks => ("/v3/check", GET)
| OpPostCheckDeposit => ("/v3/check/deposit/{check_id}", POST)
| OpPostCheckDigital => ("/v3/check/digital", POST)
| OpPostCheckEndorse => ("/v3/check/endorse/{check_id}", POST)
| OpPostCheckMulti => ("/v3/check/multi", POST)
| OpPostCheckPhysical => ("/v3/check/physical", POST)
| OpPostCheckPreview => ("/v3/check/preview", POST)
| OpPostCheckPrint => ("/v3/check/print/{check_id}", POST)
| OpPost_check_webhook => ("/v3/check/webhook/{check_id}", PUT)
| OpDeleteCheck => ("/v3/check/{check_id}", DELETE)
| OpGetCheck => ("/v3/check/{check_id}", GET)
| OpGetCheckAttachment => ("/v3/check/{check_id}/attachment", GET)
| OpGetCheckDeposit => ("/v3/check/{check_id}/deposit", GET)
| OpGetCheckFail => ("/v3/check/{check_id}/fail", GET)
| OpGetCheckTracking => ("/v3/check/{check_id}/tracking", GET)
| OpGetDirectory => ("/v3/directory", GET)
| OpCreateDirectory => ("/v3/directory", POST)
| OpDeleteDirectory => ("/v3/directory/{directory_id}", DELETE)
| OpUpdateDirectory => ("/v3/directory/{directory_id}", PUT)
| OpCreateDirectoryBank => ("/v3/directory/{directory_id}/account/bank", POST)
| OpCreateDirectoryCard => ("/v3/directory/{directory_id}/account/card", POST)
| OpDeleteDirectoryAccount => ("/v3/directory/{directory_id}/account/{account_id}", DELETE)
| OpGetInvoices => ("/v3/invoice", GET)
| OpPostInvoice => ("/v3/invoice", POST)
| OpPostInvoicePayment => ("/v3/invoice/payment", POST)
| OpDeleteInvoice => ("/v3/invoice/{invoice_id}", DELETE)
| OpGetInvoice => ("/v3/invoice/{invoice_id}", GET)
| OpGetInvoiceAttachment => ("/v3/invoice/{invoice_id}/attachment", GET)
| OpGetSubscriptions => ("/v3/subscription", GET)
| OpPostSubscriptionCheck => ("/v3/subscription/check", POST)
| OpPostSubscriptionInvoice => ("/v3/subscription/invoice", POST)
| OpDeleteSubscription => ("/v3/subscription/{subscription_id}", DELETE)
| OpGetSubscription => ("/v3/subscription/{subscription_id}", GET)
| OpPutSubscription => ("/v3/subscription/{subscription_id}", PUT)
| OpGetUser => ("/v3/user", GET)
| OpPostUser => ("/v3/user", POST)
| OpPutUser => ("/v3/user", PUT)
| OpGetApiKeys => ("/v3/user/api_key", GET)
| OpNewApiKey => ("/v3/user/api_key", POST)
| OpDeleteApiKey => ("/v3/user/api_key/{key_id}", DELETE)
| OpGetUsers => ("/v3/user/list", GET)
| OpPostUserSignature => ("/v3/user/signature", POST)
| OpDeleteUser => ("/v3/user/{user_id}", DELETE)
end.

(** Dispatch of an invocation to the method of that name. *)
Definition invoke {Account : Type} (env : Env Account) (c : Call)
: M (Promise FetchResponse) :=
match c with
| CallGetBanks => getBanks env
| CallPostBank body => postBank env body
| CallPostBankIav body => postBankIav env body
| CallPostBankPlaid body => postBankPlaid env body
| CallGetBankInstitutions => getBankInstitutions env
| CallPostBankRelease body => postBankRelease env body
| CallPostBankVerify body => postBankVerify env body
| CallDeleteBank metadata => deleteBank env metadata
| CallPutBank body metadata => putBank env body metadata
| CallGetCards => getCards env
| CallPostCard body => postCard env body
| CallDeleteCard metadata => deleteCard env metadata
| CallPutCard body metadata => putCard env body metadata
| CallGet_paypal => get_paypal env
| CallAdd_paypal body => add_paypal env body
| CallRemove_paypal metadata => remove_paypal env metadata
| CallPut_paypal body metadata => put_paypal env body metadata
| CallGetVccs => getVccs env
| CallPostVcc body => postVcc env body
| CallDeleteVcc metadata => deleteVcc env metadata
| CallPutVcc body metadata => putVcc env body metadata
| CallGetVccTransaction metadata => getVccTransaction env metadata
| CallGet_venmo => get_venmo env
| CallAdd_venmo body => add_venmo env body
| CallRemove_venmo metadata => remove_venmo env metadata
| CallPut_venmo body metadata => put_venmo env body metadata
| CallAdd_wallet body => add_wallet env body
| CallGet_zelle => get_zelle env
| CallAdd_zelle body => add_zelle env body
| CallPut_zelle body metadata => put_zelle env body metadata
| CallRemove_zelle metadata => remove_zelle env metadata
| CallGetApprovalChecks metadata => getApprovalChecks env metadata
| CallPostApprovalDigital body => postApprovalDigital env body
| CallPostApprovalMulti body => postApprovalMulti env body
| CallPostApprovalPhysical body => postApprovalPhysical env body
| CallPostApprovalRelease body => postApprovalRelease env body
| CallDeleteApprovalCheck metadata => deleteApprovalCheck env metadata
| CallGetApprovalCheck metadata => getApprovalCheck env metadata
| CallPutApprovalCheck body metadata => putApprovalCheck env body metadata
| CallGetApprovalAttachment metadata => getApprovalAttachment env metadata
| CallGetChecks metadata => getChecks env metadata
| CallPostCheckDeposit body metadata => postCheckDeposit env body metadata
| CallPostCheckDigital body => postCheckDigital env body
| CallPostCheckEndorse body metadata => postCheckEndorse env body metadata
| CallPostCheckMulti body => postCheckMulti env body
| CallPostCheckPhysical body => postCheckPhysical env body
| CallPostCheckPreview body => postCheckPreview env body
| CallPostCheckPrint metadata => postCheckPrint env metadata
| CallPost_check_webhook body metadata => post_check_webhook env body metadata
| CallDeleteCheck metadata => deleteCheck env metadata
| CallGetCheck metadata => getCheck env metadata
| CallGetCheckAttachment metadata => getCheckAttachment env metadata
| CallGetCheckDeposit metadata => getCheckDeposit env metadata
| CallGetCheckFail metadata => getCheckFail env metadata
| CallGetCheckTracking metadata => getCheckTracking env metadata
| CallGetDirectory metadata => getDirectory env metadata
| CallCreateDirectory body => createDirectory env body
| CallDeleteDirectory metadata => deleteDirectory env metadata
| CallUpdateDirectory body metadata => updateDirectory env body metadata
| CallCreateDirectoryBank body metadata => createDirectoryBank env body metadata
| CallCreateDirectoryCard body metadata => createDirectoryCard env body metadata
| CallDeleteDirectoryAccount metadata => deleteDirectoryAccount env metadata
| CallGetInvoices metadata => getInvoices env metadata
| CallPostInvoice body => postInvoice env body
| CallPostInvoicePayment body => postInvoicePayment env body
| CallDeleteInvoice metadata => deleteInvoice env metadata
| CallGetInvoice metadata => getInvoice env metadata
| CallGetInvoiceAttachment metadata => getInvoiceAttachment env metadata
| CallGetSubscriptions metadata => getSubscriptions env metadata
| CallPostSubscriptionCheck body => postSubscriptionCheck env body
| CallPostSubscriptionInvoice body => postSubscriptionInvoice env body
| CallDeleteSubscription metadata => deleteSubscription env metadata
| CallGetSubscription metadata => getSubscription env metadata
| CallPutSubscription body metadata => putSubscription env body metadata
| CallGetUser => getUser env
| CallPostUser body => postUser env body
| CallPutUser body => putUser env body
| CallGetApiKeys => getApiKeys env
| CallNewApiKey body => newApiKey env body
| CallDeleteApiKey metadata => deleteApiKey env metadata
| CallGetUsers metadata => getUsers env metadata
| CallPostUserSignature body => postUserSignature env body
| CallDeleteUser metadata => deleteUser env metadata
end.

End SDK.

(** ** The server actions on the payment vendors *)

(** The [use server] module that follows the form component in
    [src/components/AuthForm.tsx]. *)
Module PaymentActions.
Section WithEnv.
Context {Account : Type} (env : Env Account).

(** [const { CHECKBOOK_KEY: api_key, CHECKBOOK_SECRET: api_secret, ... } =
    process.env] *)
Definition api_key : option string := CHECKBOOK_KEY env.
Definition api_secret : option string := CHECKBOOK_SECRET env.

(** [Pick<SignUpParams, 'firstName' | 'lastName' | 'email'>] *)
Record NewCustomer : Type := mkNewCustomer {
  firstName : string;
  lastName : string;
  email : string
}.

Definition createCheckbookCustomer (newCustomer : NewCustomer)
  : World -> Promise value * World :=
  async (
    try_catch
      (SDK.auth [tpl api_key ++ ":" ++ tpl api_secret] ;;;
       p <- SDK.postUser env
              (VObj [("name", VStr (firstName newCustomer ++ "_" ++ lastName newCustomer));
                     ("user_id", VStr (email newCustomer))]) ;;
       p' <- promise_then p (fun r => console_log [data r] ;;; ret (data r)) ;;
       floating p')
      (fun err =>
         console_error [VStr "Creating a Checkbook Customer Failed: "; err]) ;;;
    ret VUndefined).

Definition connectToBankPlaid (plaidToken : string)
  : World -> Promise value * World :=
  async (
    SDK.auth [tpl api_key ++ ":" ++ tpl api_secret] ;;;
    p <- SDK.postBankPlaid env (VObj [("processor_token", VStr plaidToken)]) ;;
    p1 <- promise_then p (fun r => console_log [data r]) ;;
    p2 <- promise_catch p1 (fun err => console_error [err]) ;;
    floating p2 ;;;
    ret VUndefined).

Record AddFundingSourceParams : Type := mkAddFundingSourceParams {
  dwollaCustomerId : string;
  processorToken : string;
  bankName : string
}.

Definition addFundingSource (params : AddFundingSourceParams)
  : World -> Promise value * World :=
  async (try_catch
    (dwollaAuthLinks <- call EvCreateOnDemandAuthorization
                             (createOnDemandAuthorization env) ;;
     let fundingSourceOptions :=
       {| customerId := dwollaCustomerId params;
          fundingSourceName := bankName params;
          plaidToken := processorToken params;
          _links := dwollaAuthLinks |} in
     call (EvCreateFundingSource fundingSourceOptions)
          (createFundingSource env fundingSourceOptions))
    (fun err =>
       console_error [VStr "Transfer fund failed: "; err] ;;;
       ret VUndefined)).

Record TransferParams : Type := mkTransferParams {
  sourceFundingSourceUrl : string;
  destinationFundingSourceUrl : string;
  amount : value
}.

(** The [requestBody] literal of [createTransfer]. *)
Definition transfer_body (params : TransferParams) : value :=
  VObj [("_links",
         VObj [("source", VObj [("href", VStr (sourceFundingSourceUrl params))]);
               ("destination", VObj [("href", VStr (destinationFundingSourceUrl params))])]);
        ("amount",
         VObj [("currency", VStr "USD");
               ("value", amount params)])].

Definition createTransfer (params : TransferParams)
  : World -> Promise value * World :=
  async (try_catch
    (let requestBody := transfer_body params in
     p <- call (EvDwollaPost "transfers" requestBody)
               (dwollaClient_post env "transfers" requestBody) ;;
     p' <- promise_then p
             (fun res => ret (of_header (resp_headers res !! "location"))) ;;
     await p')
    (fun err =>
       console_error [VStr "Transfer fund failed: "; err] ;;;
       ret VUndefined)).

End WithEnv.
End PaymentActions.

(** ** Reading JSON-like objects *)




(** ** A sample outside, to run the actions on *)

Module Sample.

Definition session : Session :=
  {| secret := "s3cr3t"; session_fields := VObj [("userId", VStr "u1")] |}.

Definition response : Response :=
  {| resp_status := 201;
     resp_headers := {[ "location" := "https://api.example/transfers/42" ]} |}.

Definition boom : value := VStr "boom".

(** Every vendor answers, and nothing throws. *)
Definition happy : Env unit :=
  {| CHECKBOOK_KEY := Some "key";
     CHECKBOOK_SECRET := Some "secret";
     createAdminClient := fun _ => Normal tt;
     createSessionClient := fun _ => Normal tt;
     parseStringify := fun _ _ => Normal (VObj []);
     ID_unique := fun _ => "id-1";
     account_create := fun _ _ _ _ _ _ => Normal (VObj [("$id", VStr "id-1")]);
     account_createEmailPasswordSession := fun _ _ _ _ => Normal session;
     account_deleteSession := fun _ _ _ => Normal (VObj []);
     account_get := fun _ _ => Normal (VObj [("$id", VStr "id-1")]);
     core_fetch_answer := fun _ _ _ _ =>
       Fulfilled {| data := VObj [("id", VStr "cb-1")]; status := 201 |};
     createOnDemandAuthorization := fun _ =>
       Normal (VObj [("on-demand-authorization", VStr "https://api.example/oda/1")]);
     createFundingSource := fun _ _ => Normal (VStr "https://api.example/fs/7");
     dwollaClient_post := fun _ _ _ => Normal (Fulfilled response) |}.

(** Every vendor call fails; the client factories still return. *)
Definition failing : Env unit :=
  {| CHECKBOOK_KEY := None;
     CHECKBOOK_SECRET := None;
     createAdminClient := fun _ => Normal tt;
     createSessionClient := fun _ => Normal tt;
     parseStringify := fun _ _ => Normal (VObj []);
     ID_unique := fun _ => "id-1";
     account_create := fun _ _ _ _ _ _ => Throw boom;
     account_createEmailPasswordSession := fun _ _ _ _ => Throw boom;
     account_deleteSession := fun _ _ _ => Throw boom;
     account_get := fun _ _ => Throw boom;
     core_fetch_answer := fun _ _ _ _ => Rejected boom;
     createOnDemandAuthorization := fun _ => Throw boom;
     createFundingSource := fun _ _ => Throw boom;
     dwollaClient_post := fun _ _ _ => Normal (Rejected boom) |}.

(** A request that arrives with a session cookie already set. *)
Definition w0 : World :=
  {| cookies := {[ "appwrite-session" := UserActions.session_cookie "old" ]};
     console := [];
     trace := [];
     sdk_auth := [];
     unhandled := [] |}.

End Sample.

(** ** Vocabulary of the properties *)

(** The session cookie both actions write for a session [s]. *)
Definition written_cookie (s : Session) : Cookie :=
  UserActions.session_cookie (secret s).

(** The world [w] once the events [evs] are on its transcript: the world in
    which the outside answers the call that comes after them. *)
Definition after (evs : list Event) (w : World) : World :=
  fold_left (fun w ev => add_event ev w) evs w.

(** Modelled from the spec: how a failure of [createOnDemandAuthorization],
    which is not part of this code, can reach [addFundingSource].  The helper
    either lets the error through, and the call throws, or catches it, logs
    it and returns [undefined] as the other actions do (the swallowed failure
    of the specification); in both cases it hands back no authorization
    links. *)
Definition no_links (r : completion value) : bool :=
  match r with
  | Throw _ | Normal VUndefined => true
  | Normal _ => false
  end.


(** The server actions that wrap an external call, with their arguments.
    ([getUserInfo] is not among them: the body of its [try] is commented
    out.) *)
Inductive Action : Type :=
| SignIn (email password : string)
| SignUp (userData : UserActions.SignUpParams)
| LogoutAccount
| GetLoggedInUser
| CreateCheckbookCustomer (newCustomer : PaymentActions.NewCustomer)
| ConnectToBankPlaid (plaidToken : string)
| AddFundingSource (params : PaymentActions.AddFundingSourceParams)
| CreateTransfer (params : PaymentActions.TransferParams).

Definition perform {Account : Type} (env : Env Account) (a : Action)
  : World -> Promise value * World :=
  match a with
  | SignIn email password => UserActions.signIn env email password
  | SignUp userData => UserActions.signUp env userData
  | LogoutAccount => UserActions.logoutAccount env
  | GetLoggedInUser => UserActions.getLoggedInUser env
  | CreateCheckbookCustomer newCustomer =>
      PaymentActions.createCheckbookCustomer env newCustomer
  | ConnectToBankPlaid plaidToken => PaymentActions.connectToBankPlaid env plaidToken
  | AddFundingSource params => PaymentActions.addFundingSource env params
  | CreateTransfer params => PaymentActions.createTransfer env params
  end.

(** ** The form component of [src/components/AuthForm.tsx] *)

(** What [if (v)] and [v ? a : b] test: [undefined], [null], [false], zero
    and the empty string are falsy, every object is truthy. *)
Definition truthy (v : value) : bool :=
  match v with
  | VUndefined | VNull => false
  | VBool b => b
  | VNum q => negb (Qeq_bool q 0)
  | VStr s => negb (String.eqb s "")
  | VObj _ => true
  end.

Module AuthForm.

(** The [type] prop: ['sign-in'] or ['sign-up']. *)
Inductive FormType : Type := SignInType | SignUpType.

(** What the component holds and shows: the two [useState] cells, [user]
    (initially [null]) and [isLoading] (initially [false]), and the routes
    handed to [router.push], oldest first. *)
Record UI : Type := mkUI {
  user : value;
  isLoading : bool;
  pushed : list string
}.

Definition initial : UI := {| user := VNull; isLoading := false; pushed := [] |}.

Definition setUser (v : value) (ui : UI) : UI :=
  {| user := v; isLoading := isLoading ui; pushed := pushed ui |}.

Definition setIsLoading (b : bool) (ui : UI) : UI :=
  {| user := user ui; isLoading := b; pushed := pushed ui |}.

Definition router_push (href : string) (ui : UI) : UI :=
  {| user := user ui; isLoading := isLoading ui; pushed := (pushed ui ++ [href])%list |}.

Section WithEnv.
Context {Account : Type} (env : Env Account).

(** The submit handler.  The form values arrive validated by the schema of
    the form; the non-null assertions the handler puts on the eight sign-up
    fields are taken at their word, so the values are the ten strings of
    [SignUpParams].  The [try] covers both branches, the [catch] logs with
    [console.log], and the [finally] resets the loading flag on every way
    out. *)
Definition onSubmit (type : FormType) (data : UserActions.SignUpParams)
    (ui : UI) (w : World) : UI * World :=
  let ui := setIsLoading true ui in
  let userData :=
    {| UserActions.firstName := UserActions.firstName data;
       UserActions.lastName := UserActions.lastName data;
       UserActions.address1 := UserActions.address1 data;
       UserActions.city := UserActions.city data;
       UserActions.state := UserActions.state data;
       UserActions.postalCode := UserActions.postalCode data;
       UserActions.dateOfBirth := UserActions.dateOfBirth data;
       UserActions.ssn := UserActions.ssn data;
       UserActions.email := UserActions.email data;
       UserActions.password := UserActions.password data |} in
  let '(ui, w) :=
    match type with
    | SignUpType =>
        match UserActions.signUp env userData w with
        | (Fulfilled newUser, w') => (setUser newUser ui, w')
        | (Rejected error, w') => (ui, add_log (mkLog LevelLog [error]) w')
        end
    | SignInType =>
        match UserActions.signIn env (UserActions.email data)
                (UserActions.password data) w with
        | (Fulfilled response, w') =>
            (if truthy response then router_push "/" ui else ui, w')
        | (Rejected error, w') => (ui, add_log (mkLog LevelLog [error]) w')
        end
    end in
  (setIsLoading false ui, w).

End WithEnv.

(** What the component renders below its header: the bank-link button once
    [user] is truthy, otherwise the form, with the eight sign-up fields only
    for ['sign-up'] and its submit button disabled while loading. *)
Inductive View : Type :=
| PlaidLinkView (user : value)
| FormView (signUpFields : bool) (submitDisabled : bool).

Definition render (type : FormType) (ui : UI) : View :=
  if truthy (user ui) then PlaidLinkView (user ui)
  else FormView (match type with SignUpType => true | SignInType => false end)
                (isLoading ui).

End AuthForm.

(** ** More vocabulary *)

(** A run that made no call that failed. *)
Definition clean (evs : list Event) : Prop :=
  forall ev, In ev evs -> failed ev = false.

(** The event writes to the cookie store. *)
Definition writes_cookie (ev : Event) : bool :=
  match ev with
  | EvCookieSet _ _ | EvCookieDelete _ => true
  | _ => false
  end.

(** The event is a call to the identity provider's [account.create]. *)
Definition creates_account (ev : Event) : bool :=
  match ev with
  | EvAccountCreate _ _ _ _ _ => true
  | _ => false
  end.

(** ** More sample data *)

Module MoreSamples.

(** The identity provider creates the account and then refuses the
    session. *)
Definition orphaning : Env unit :=
  {| CHECKBOOK_KEY := Some "key";
     CHECKBOOK_SECRET := None;
     createAdminClient := fun _ => Normal tt;
     createSessionClient := fun _ => Normal tt;
     parseStringify := fun _ _ => Normal (VObj []);
     ID_unique := fun _ => "id-2";
     account_create := fun _ _ _ _ _ _ => Normal (VObj [("$id", VStr "id-2")]);
     account_createEmailPasswordSession := fun _ _ _ _ => Throw Sample.boom;
     account_deleteSession := fun _ _ _ => Normal (VObj []);
     account_get := fun _ _ => Normal (VObj [("$id", VStr "id-2")]);
     core_fetch_answer := fun _ _ _ _ => Rejected Sample.boom;
     createOnDemandAuthorization := fun _ => Throw Sample.boom;
     createFundingSource := fun _ _ => Throw Sample.boom;
     dwollaClient_post := fun _ _ _ => Throw Sample.boom |}.

Definition ann : UserActions.SignUpParams :=
  {| UserActions.firstName := "Ann";
     UserActions.lastName := "Lee";
     UserActions.address1 := "1 Main St";
     UserActions.city := "Springfield";
     UserActions.state := "IL";
     UserActions.postalCode := "62701";
     UserActions.dateOfBirth := "1990-01-01";
     UserActions.ssn := "123-45-6789";
     UserActions.email := "ann@example.org";
     UserActions.password := "pw" |}.

(** A request that comes with a session cookie and one more cookie. *)
Definition two_cookies : World :=
  {| cookies := <[ "theme" := {| cookie_value := "dark";
                                 cookie_path := None;
                                 cookie_httpOnly := None;
                                 cookie_sameSite := None;
                                 cookie_secure := None;
                                 cookie_domain := None;
                                 cookie_maxAge := None;
                                 cookie_expires := None |} ]>
                (cookies Sample.w0);
     console := [];
     trace := [];
     sdk_auth := [];
     unhandled := [] |}.

(** The grant helper swallows its failure and returns [undefined]; the
    payment network then refuses the funding source. *)
Definition swallowing : Env unit :=
  {| CHECKBOOK_KEY := Some "key";
     CHECKBOOK_SECRET := Some "secret";
     createAdminClient := fun _ => Normal tt;
     createSessionClient := fun _ => Normal tt;
     parseStringify := fun _ _ => Normal (VObj []);
     ID_unique := fun _ => "id-3";
     account_create := fun _ _ _ _ _ _ => Normal (VObj []);
     account_createEmailPasswordSession := fun _ _ _ _ => Normal Sample.session;
     account_deleteSession := fun _ _ _ => Normal (VObj []);
     account_get := fun _ _ => Normal (VObj []);
     core_fetch_answer := fun _ _ _ _ => Rejected Sample.boom;
     createOnDemandAuthorization := fun _ => Normal VUndefined;
     createFundingSource := fun _ _ => Throw Sample.boom;
     dwollaClient_post := fun _ _ _ => Throw Sample.boom |}.

(** No client can be made: both factories of [../appwrite] throw. *)
Definition clientless : Env unit :=
  {| CHECKBOOK_KEY := None;
     CHECKBOOK_SECRET := None;
     createAdminClient := fun _ => Throw Sample.boom;
     createSessionClient := fun _ => Throw Sample.boom;
     parseStringify := fun _ _ => Normal (VObj []);
     ID_unique := fun _ => "id-4";
     account_create := fun _ _ _ _ _ _ => Normal (VObj []);
     account_createEmailPasswordSession := fun _ _ _ _ => Normal Sample.session;
     account_deleteSession := fun _ _ _ => Normal (VObj []);
     account_get := fun _ _ => Normal (VObj []);
     core_fetch_answer := fun _ _ _ _ => Rejected Sample.boom;
     createOnDemandAuthorization := fun _ => Throw Sample.boom;
     createFundingSource := fun _ _ => Throw Sample.boom;
     dwollaClient_post := fun _ _ _ => Throw Sample.boom |}.

Definition my_bank : PaymentActions.AddFundingSourceParams :=
  PaymentActions.mkAddFundingSourceParams "cust-1" "processor-1" "My Bank".

End MoreSamples.

(** * Properties *)

Local Open Scope list_scope.

(** ** Sample runs *)

(** A logout that goes through: client, cookie, session, in that order. *)
Example logout_goes_through :
  (UserActions.logoutAccount Sample.happy Sample.w0).1 = Fulfilled (VBool true)
  /\ trace (UserActions.logoutAccount Sample.happy Sample.w0).2
     = [EvCreateSessionClient Ok;
        EvCookieDelete "appwrite-session";
        EvDeleteSession "current" (Normal (VObj []))]
  /\ cookies (UserActions.logoutAccount Sample.happy Sample.w0).2 = ∅.
Proof. repeat split. Qed.

(** A sign-in that goes through replaces the older session cookie. *)
Example signIn_goes_through :
  (UserActions.signIn Sample.happy "ann@example.org" "pw" Sample.w0).1
  = Fulfilled (VObj [])
  /\ cookie_value
       <$> cookies (UserActions.signIn Sample.happy "ann@example.org" "pw" Sample.w0).2
           !! "appwrite-session"
     = Some "s3cr3t".
Proof. split; reflexivity. Qed.

(** A transfer of a negative amount is posted like any other. *)
Example createTransfer_negative_amount :
  let params :=
    PaymentActions.mkTransferParams
      "https://api.example/fs/1" "https://api.example/fs/2" (VNum (-5 # 1)) in
  (PaymentActions.createTransfer Sample.happy params Sample.w0).1
  = Fulfilled (VStr "https://api.example/transfers/42")
  /\ trace (PaymentActions.createTransfer Sample.happy params Sample.w0).2
     = [EvDwollaPost "transfers"
          (VObj [("_links",
                  VObj [("source", VObj [("href", VStr "https://api.example/fs/1")]);
                        ("destination", VObj [("href", VStr "https://api.example/fs/2")])]);
                 ("amount",
                  VObj [("currency", VStr "USD"); ("value", VNum (-5 # 1))])])
          (Normal (Fulfilled Sample.response))].
Proof. split; reflexivity. Qed.

(** A customer creation the vendor rejects: nothing on the console, the
    rejection unhandled, and [undefined] all the same. *)
Example createCheckbookCustomer_rejected :
  let run :=
    PaymentActions.createCheckbookCustomer Sample.failing
      (PaymentActions.mkNewCustomer "Ann" "Lee" "ann@example.org") Sample.w0 in
  run.1 = Fulfilled VUndefined
  /\ console run.2 = []
  /\ unhandled run.2 = [Sample.boom]
  /\ sdk_auth run.2 = ["undefined:undefined"]
  /\ trace run.2
     = [EvFetch "/v3/user" POST
          [VObj [("name", VStr "Ann_Lee"); ("user_id", VStr "ann@example.org")]]
          (Rejected Sample.boom)].
Proof. repeat split. Qed.

(** A bank connection the vendor rejects: the [.catch] handler logs it. *)
Example connectToBankPlaid_rejected :
  let run := PaymentActions.connectToBankPlaid Sample.failing "processor-1" Sample.w0 in
  run.1 = Fulfilled VUndefined
  /\ console run.2 = [mkLog LevelError [Sample.boom]]
  /\ unhandled run.2 = [].
Proof. repeat split. Qed.

(** ** The transcript only grows *)

Lemma since_app (w w' : World) (evs : list Event) :
  trace w' = trace w ++ evs -> since w w' = evs.
Proof.
  intros H. unfold since. rewrite H. apply drop_app_length.
Qed.

(** Unfold the monad so that a run shows as a cascade of matches on the
    answers of the outside. *)
Ltac unfold_js :=
  unfold async, try_catch, bind, call, request, lift, ret, throw,
    cookies_set, cookies_delete, console_log, console_error,
    await, promise_then, promise_catch, floating in *.

(** Split on the next answer the run is waiting for. *)
Ltac next_answer :=
  match goal with
  | |- context [match ?x with Normal _ => _ | Throw _ => _ end] =>
      destruct x eqn:?; cbn [fst snd outcome_of]
  | |- context [match ?x with Fulfilled _ => _ | Rejected _ => _ end] =>
      destruct x eqn:?; cbn [fst snd outcome_of]
  end.

(** Compute the events a finished run added. *)
Ltac since_now :=
  match goal with
  | |- context [since ?w ?w'] =>
      erewrite (since_app w w') by (cbn; rewrite <- ?app_assoc; reflexivity);
      cbn [app]
  end.

(** ** [logoutAccount] *)

Section LogoutAccount.
Context {Account : Type} (env : Env Account).

(** The three ways a logout can go: no session client, so nothing is
    touched; the cookie is deleted and the identity provider refuses; or
    both deletions go through. *)
Lemma logoutAccount_runs (w : World) :
  let r := (UserActions.logoutAccount env w).1 in
  let w' := (UserActions.logoutAccount env w).2 in
  let evs := since w w' in
  (exists e, evs = [EvCreateSessionClient (Failed e)]
             /\ r = Fulfilled VUndefined
             /\ cookies w' = cookies w)
  \/ (exists e, evs = [EvCreateSessionClient Ok;
                       EvCookieDelete "appwrite-session";
                       EvDeleteSession "current" (Throw e)]
                /\ r = Fulfilled VUndefined
                /\ cookies w' = delete "appwrite-session" (cookies w))
  \/ (exists v, evs = [EvCreateSessionClient Ok;
                       EvCookieDelete "appwrite-session";
                       EvDeleteSession "current" (Normal v)]
                /\ r = Fulfilled (VBool true)
                /\ cookies w' = delete "appwrite-session" (cookies w)).
Proof.
  unfold UserActions.logoutAccount. unfold_js.
  next_answer.
  - next_answer.
    + right; right. eexists. since_now. repeat split.
    + right; left. eexists. since_now. repeat split.
  - left. eexists. since_now. repeat split.
Qed.

(** C4, as the code has it.  [logoutAccount] first asks for a session
    client.  If that throws, it stops there: neither deletion is attempted,
    the cookie jar is as it was, and the result is [undefined].  If the
    client is returned, the action deletes the [appwrite-session] cookie and
    then asks the identity provider to delete the current session, which
    answers in a world whose jar no longer holds the cookie; the result is
    [true] when that answer is a normal return and [undefined] when it is a
    throw. *)
Theorem logoutAccount_deletes_cookie_then_session (w : World) :
  let r := (UserActions.logoutAccount env w).1 in
  let w' := (UserActions.logoutAccount env w).2 in
  match createSessionClient env w with
  | Throw e =>
      since w w' = [EvCreateSessionClient (Failed e)]
      /\ cookies w' = cookies w
      /\ r = Fulfilled VUndefined
  | Normal account =>
      let answer :=
        account_deleteSession env account "current"
          (set_cookies (delete "appwrite-session")
             (after [EvCreateSessionClient Ok; EvCookieDelete "appwrite-session"] w)) in
      since w w' = [EvCreateSessionClient Ok;
                    EvCookieDelete "appwrite-session";
                    EvDeleteSession "current" answer]
      /\ cookies w' = delete "appwrite-session" (cookies w)
      /\ r = match answer with
             | Normal _ => Fulfilled (VBool true)
             | Throw _ => Fulfilled VUndefined
             end
  end.
Proof.
  cbn zeta. unfold UserActions.logoutAccount, after. unfold_js.
  unfold set_cookies, add_event.
  cbn [fold_left cookies console trace sdk_auth unhandled].
  next_answer; [next_answer |]; since_now; repeat split.
Qed.

(** C10. When the identity provider's session deletion throws,
    [logoutAccount] resolves to [undefined], and the [appwrite-session]
    cookie, deleted before the call, stays deleted: the cookie jar is the
    one of the start without that cookie. *)
Theorem logoutAccount_not_atomic (w : World) (e : value) :
  let r := (UserActions.logoutAccount env w).1 in
  let w' := (UserActions.logoutAccount env w).2 in
  In (EvDeleteSession "current" (Throw e)) (since w w') ->
  r = Fulfilled VUndefined
  /\ In (EvCookieDelete "appwrite-session") (since w w')
  /\ cookies w' = delete "appwrite-session" (cookies w)
  /\ cookies w' !! "appwrite-session" = None.
Proof.
  cbn zeta.
  destruct (logoutAccount_runs w)
    as [(e' & Hev & Hr & Hc) | [(e' & Hev & Hr & Hc) | (v & Hev & Hr & Hc)]];
    cbn zeta in Hev, Hr, Hc; rewrite Hev, Hr, Hc; clear Hev Hr Hc; cbn.
  - intros [H | []]; discriminate.
  - intros _. repeat split; auto. apply lookup_delete_eq.
  - intros [H | [H | [H | []]]]; discriminate.
Qed.

End LogoutAccount.

(** A logout that fails at the identity provider, on a request that came
    with a session cookie: the cookie is gone all the same. *)
Lemma logoutAccount_not_atomic_witness :
  cookies Sample.w0 !! "appwrite-session" = Some (UserActions.session_cookie "old")
  /\ (UserActions.logoutAccount Sample.failing Sample.w0).1 = Fulfilled VUndefined
  /\ cookies (UserActions.logoutAccount Sample.failing Sample.w0).2
       !! "appwrite-session" = None.
Proof.
  split; [reflexivity |].
  destruct (logoutAccount_not_atomic Sample.failing Sample.w0 Sample.boom)
    as (Hr & _ & _ & Hc).
  - cbn. auto.
  - split; [exact Hr | exact Hc].
Defined.

(** C4, as the specification words it, fails when no session client can be
    made: on a request that came with the session cookie, [logoutAccount]
    makes that one call and stops, so the deletion of the cookie is not
    attempted and the cookie stays in the jar. *)
Lemma logoutAccount_skips_cookie_without_client :
  since Sample.w0 (UserActions.logoutAccount MoreSamples.clientless Sample.w0).2
  = [EvCreateSessionClient (Failed Sample.boom)]
  /\ ~ In (EvCookieDelete "appwrite-session")
         (since Sample.w0 (UserActions.logoutAccount MoreSamples.clientless Sample.w0).2)
  /\ cookies (UserActions.logoutAccount MoreSamples.clientless Sample.w0).2
     !! "appwrite-session" = Some (UserActions.session_cookie "old").
Proof.
  split; [reflexivity | split; [| reflexivity]].
  cbn. intros [H | []]. discriminate H.
Qed.

(** A logout with a client, refused by the identity provider: the cookie is
    deleted first, the refused deletion comes after, and the result is
    [undefined]. *)
Lemma logoutAccount_deletes_cookie_then_session_witness :
  since Sample.w0 (UserActions.logoutAccount Sample.failing Sample.w0).2
  = [EvCreateSessionClient Ok;
     EvCookieDelete "appwrite-session";
     EvDeleteSession "current" (Throw Sample.boom)]
  /\ cookies (UserActions.logoutAccount Sample.failing Sample.w0).2
     = delete "appwrite-session" (cookies Sample.w0)
  /\ (UserActions.logoutAccount Sample.failing Sample.w0).1 = Fulfilled VUndefined.
Proof.
  exact (logoutAccount_deletes_cookie_then_session Sample.failing Sample.w0).
Defined.

(** ** [signIn] and [signUp] *)

(** Go through the members of a transcript that is known in full. *)
Ltac by_member H :=
  cbn in H;
  repeat (destruct H as [H | H];
          [ try discriminate H; try (injection H as H; subst) | ]);
  try contradiction.

Section SignInSignUp.
Context {Account : Type} (env : Env Account).

(** The three ways a sign-in can go: no admin client; the identity
    provider refuses the credentials; or a session is issued and its
    cookie is written. *)
Lemma signIn_runs (email password : string) (w : World) :
  let r := (UserActions.signIn env email password w).1 in
  let w' := (UserActions.signIn env email password w).2 in
  let evs := since w w' in
  (exists e, evs = [EvCreateAdminClient (Failed e)]
             /\ r = Fulfilled VUndefined
             /\ cookies w' = cookies w)
  \/ (exists e, evs = [EvCreateAdminClient Ok;
                       EvCreateEmailPasswordSession email password (Throw e)]
                /\ r = Fulfilled VUndefined
                /\ cookies w' = cookies w)
  \/ (exists s, evs = [EvCreateAdminClient Ok;
                       EvCreateEmailPasswordSession email password (Normal s);
                       EvCookieSet "appwrite-session" (written_cookie s)]
                /\ cookies w' = <["appwrite-session" := written_cookie s]> (cookies w)).
Proof.
  unfold UserActions.signIn. unfold_js.
  next_answer.
  - next_answer.
    + right; right. eexists.
      destruct (parseStringify env _); cbn [fst snd]; since_now; repeat split.
    + right; left. eexists. since_now. repeat split.
  - left. eexists. since_now. repeat split.
Qed.

(** The ways a sign-up can go; the cookie is written only on the last. *)
Lemma signUp_runs (userData : UserActions.SignUpParams) (w : World) :
  let email := UserActions.email userData in
  let password := UserActions.password userData in
  let r := (UserActions.signUp env userData w).1 in
  let w' := (UserActions.signUp env userData w).2 in
  let evs := since w w' in
  (exists e, evs = [EvCreateAdminClient (Failed e)]
             /\ r = Fulfilled VUndefined
             /\ cookies w' = cookies w)
  \/ (exists id name e,
         evs = [EvCreateAdminClient Ok;
                EvAccountCreate id email password name (Throw e)]
         /\ r = Fulfilled VUndefined
         /\ cookies w' = cookies w)
  \/ (exists id name u e,
         evs = [EvCreateAdminClient Ok;
                EvAccountCreate id email password name (Normal u);
                EvCreateEmailPasswordSession email password (Throw e)]
         /\ r = Fulfilled VUndefined
         /\ cookies w' = cookies w)
  \/ (exists id name u s,
         evs = [EvCreateAdminClient Ok;
                EvAccountCreate id email password name (Normal u);
                EvCreateEmailPasswordSession email password (Normal s);
                EvCookieSet "appwrite-session" (written_cookie s)]
         /\ cookies w' = <["appwrite-session" := written_cookie s]> (cookies w)).
Proof.
  unfold UserActions.signUp. unfold_js.
  next_answer.
  - next_answer.
    + next_answer.
      * do 3 right. do 4 eexists.
        destruct (parseStringify env _); cbn [fst snd]; since_now; repeat split.
      * right; right; left. do 4 eexists. since_now. repeat split.
    + right; left. do 3 eexists. since_now. repeat split.
  - left. eexists. since_now. repeat split.
Qed.

(** C5. In every sign-in and every sign-up in which the identity provider
    answers each call, ending with a session [s], the run sets the cookie
    [appwrite-session] once, as its last step, to the secret of [s] with
    [path=/], [httpOnly=true], [sameSite=strict], [secure=true] and no other
    attribute, and that is the cookie the jar holds at the end.  A sign-in
    or sign-up that resolves to anything but [undefined] is such a run. *)
Theorem session_cookie_attributes
    (email password : string) (userData : UserActions.SignUpParams) (w : World) :
  let cookie_of s :=
    {| cookie_value := secret s;
       cookie_path := Some "/";
       cookie_httpOnly := Some true;
       cookie_sameSite := Some SameSiteStrict;
       cookie_secure := Some true;
       cookie_domain := None;
       cookie_maxAge := None;
       cookie_expires := None |} in
  let w1 := after [EvCreateAdminClient Ok] w in
  let email' := UserActions.email userData in
  let password' := UserActions.password userData in
  let id := ID_unique env w1 in
  let name :=
    (UserActions.firstName userData ++ " " ++ UserActions.lastName userData)%string in
  let issued_in account s :=
    createAdminClient env w = Normal account
    /\ account_createEmailPasswordSession env account email password w1 = Normal s in
  let issued_up account newUserAccount s :=
    createAdminClient env w = Normal account
    /\ account_create env account id email' password' name w1 = Normal newUserAccount
    /\ account_createEmailPasswordSession env account email' password'
         (after [EvAccountCreate id email' password' name (Normal newUserAccount)] w1)
       = Normal s in
  (forall account s,
      issued_in account s ->
      since w (UserActions.signIn env email password w).2
      = [EvCreateAdminClient Ok;
         EvCreateEmailPasswordSession email password (Normal s);
         EvCookieSet "appwrite-session" (cookie_of s)]
      /\ cookies (UserActions.signIn env email password w).2 !! "appwrite-session"
         = Some (cookie_of s))
  /\ ((UserActions.signIn env email password w).1 <> Fulfilled VUndefined ->
      exists account s, issued_in account s)
  /\ (forall account newUserAccount s,
        issued_up account newUserAccount s ->
        since w (UserActions.signUp env userData w).2
        = [EvCreateAdminClient Ok;
           EvAccountCreate id email' password' name (Normal newUserAccount);
           EvCreateEmailPasswordSession email' password' (Normal s);
           EvCookieSet "appwrite-session" (cookie_of s)]
        /\ cookies (UserActions.signUp env userData w).2 !! "appwrite-session"
           = Some (cookie_of s))
  /\ ((UserActions.signUp env userData w).1 <> Fulfilled VUndefined ->
      exists account newUserAccount s, issued_up account newUserAccount s).
Proof.
  cbn zeta. unfold after. cbn [fold_left].
  unfold UserActions.signIn, UserActions.signUp. unfold_js.
  unfold UserActions.session_cookie.
  split; [| split; [| split]].
  - intros account s [H1 H2]. rewrite H1. cbn [outcome_of]. rewrite H2.
    destruct (parseStringify env s); cbn [fst snd]; since_now;
      (split; [reflexivity | cbn; apply lookup_insert_eq]).
  - repeat next_answer; intros H; try (now contradiction H); eauto.
  - intros account u s (H1 & H2 & H3). rewrite H1. cbn [outcome_of].
    rewrite H2, H3.
    destruct (parseStringify env u); cbn [fst snd]; since_now;
      (split; [reflexivity | cbn; apply lookup_insert_eq]).
  - repeat next_answer; intros H; try (now contradiction H); eauto 6.
Qed.

(** C9. When the identity provider throws on creating the email/password
    session, [signIn] resolves to [undefined], never calls
    [cookies().set], and leaves the cookie jar as it found it. *)
Theorem signIn_failure_keeps_cookies
    (email password : string) (w : World) (e : value) :
  let r := (UserActions.signIn env email password w).1 in
  let w' := (UserActions.signIn env email password w).2 in
  In (EvCreateEmailPasswordSession email password (Throw e)) (since w w') ->
  r = Fulfilled VUndefined
  /\ (forall name c, ~ In (EvCookieSet name c) (since w w'))
  /\ cookies w' = cookies w.
Proof.
  cbn zeta.
  destruct (signIn_runs email password w)
    as [(e' & Hev & Hr & Hc) | [(e' & Hev & Hr & Hc) | (s & Hev & Hc)]];
    cbn zeta in *; rewrite Hev; intros H; by_member H.
  repeat split; auto.
  intros name c H'. by_member H'.
Qed.

End SignInSignUp.

(** A sign-in the identity provider refuses, on a request that came with an
    older session cookie: the older cookie is still there. *)
Lemma signIn_failure_keeps_cookies_witness :
  (UserActions.signIn Sample.failing "ann@example.org" "pw" Sample.w0).1
  = Fulfilled VUndefined
  /\ cookies (UserActions.signIn Sample.failing "ann@example.org" "pw" Sample.w0).2
     = cookies Sample.w0.
Proof.
  destruct (signIn_failure_keeps_cookies
              Sample.failing "ann@example.org" "pw" Sample.w0 Sample.boom)
    as (Hr & _ & Hc).
  - cbn. auto.
  - split; [exact Hr | exact Hc].
Defined.

(** A sign-in and a sign-up that go through, on a request that came with an
    older session cookie: the jar ends with the cookie of the new session. *)
Lemma session_cookie_attributes_witness :
  cookies (UserActions.signIn Sample.happy "ann@example.org" "pw" Sample.w0).2
    !! "appwrite-session"
  = Some (mkCookie "s3cr3t" (Some "/") (Some true) (Some SameSiteStrict) (Some true)
            None None None)
  /\ cookies (UserActions.signUp Sample.happy MoreSamples.ann Sample.w0).2
       !! "appwrite-session"
     = Some (mkCookie "s3cr3t" (Some "/") (Some true) (Some SameSiteStrict) (Some true)
               None None None).
Proof.
  destruct (session_cookie_attributes Sample.happy "ann@example.org" "pw"
              MoreSamples.ann Sample.w0) as (Hin & _ & Hup & _).
  split.
  - apply (Hin tt Sample.session). split; reflexivity.
  - apply (Hup tt (VObj [("$id", VStr "id-1")]) Sample.session).
    repeat split.
Defined.

(** ** The generated client *)

Section GeneratedClient.
Context {Account : Type} (env : Env Account).

(** C7. Whatever the operation and whatever its arguments, invoking it
    issues one request and nothing else: the path and the HTTP method are
    those of the operation, the arguments are handed to [core.fetch] as
    they came, the promise of [core.fetch] is returned as it is, and the
    world is otherwise untouched. *)
Theorem sdk_is_request_mapping (c : SDK.Call) (w : World) :
  let path := (SDK.route (SDK.op_of c)).1 in
  let method := (SDK.route (SDK.op_of c)).2 in
  let answer := core_fetch_answer env path method (SDK.call_args c) w in
  SDK.invoke env c w
  = (Normal answer, add_event (EvFetch path method (SDK.call_args c) answer) w)
  /\ since w (SDK.invoke env c w).2
     = [EvFetch path method (SDK.call_args c) answer].
Proof.
  destruct c; (split; [reflexivity | cbn; since_now; reflexivity]).
Qed.

(** The two operations the server actions use. *)
Example postUser_request (body : value) (w : World) :
  since w (SDK.postUser env body w).2
  = [EvFetch "/v3/user" POST [body]
       (core_fetch_answer env "/v3/user" POST [body] w)].
Proof. cbn. since_now. reflexivity. Qed.

Example postBankPlaid_request (body : value) (w : World) :
  since w (SDK.postBankPlaid env body w).2
  = [EvFetch "/v3/account/bank/iav/plaid" POST [body]
       (core_fetch_answer env "/v3/account/bank/iav/plaid" POST [body] w)].
Proof. cbn. since_now. reflexivity. Qed.

End GeneratedClient.

(** ** The payment actions *)

Section Payments.
Context {Account : Type} (env : Env Account).


(** C2, as the code has it.  [addFundingSource] always asks for the
    authorization links first.  Only when that call throws does it stop: the
    funding source is then never requested.  Whenever the call returns, be it
    with [undefined] because the helper swallowed its failure, the funding
    source is requested next, with what was returned as its [_links]. *)
Theorem addFundingSource_stops_only_on_throw
    (params : PaymentActions.AddFundingSourceParams) (w : World) :
  let evs := since w (PaymentActions.addFundingSource env params w).2 in
  match createOnDemandAuthorization env w with
  | Throw e =>
      evs = [EvCreateOnDemandAuthorization (Throw e)]
      /\ forall opts a, ~ In (EvCreateFundingSource opts a) evs
  | Normal links =>
      let options :=
        {| customerId := PaymentActions.dwollaCustomerId params;
           fundingSourceName := PaymentActions.bankName params;
           plaidToken := PaymentActions.processorToken params;
           _links := links |} in
      evs = [EvCreateOnDemandAuthorization (Normal links);
             EvCreateFundingSource options
               (createFundingSource env options
                  (after [EvCreateOnDemandAuthorization (Normal links)] w))]
  end.
Proof.
  cbn zeta. unfold PaymentActions.addFundingSource, after. unfold_js.
  cbn [fold_left].
  next_answer; [next_answer |]; since_now; try reflexivity.
  split; [reflexivity |]. intros opts b H. by_member H.
Qed.


(** C8. [createCheckbookCustomer] posts the new user once and resolves to
    [undefined] whatever comes of it.  When the post goes through, the
    created user's data is written to the console and goes nowhere else.
    When the post is rejected, the [catch] block does not run: nothing is
    written to the console, and the rejection is left unhandled. *)
Theorem createCheckbookCustomer_discards_outcome
    (newCustomer : PaymentActions.NewCustomer) (w : World) :
  let r := (PaymentActions.createCheckbookCustomer env newCustomer w).1 in
  let w' := (PaymentActions.createCheckbookCustomer env newCustomer w).2 in
  let body :=
    VObj [("name", VStr (PaymentActions.firstName newCustomer ++ "_"
                         ++ PaymentActions.lastName newCustomer)%string);
          ("user_id", VStr (PaymentActions.email newCustomer))] in
  r = Fulfilled VUndefined
  /\ exists answer,
      since w w' = [EvFetch "/v3/user" POST [body] answer]
      /\ match answer with
         | Fulfilled res =>
             console w' = console w ++ [mkLog LevelLog [data res]]
             /\ unhandled w' = unhandled w
         | Rejected e =>
             console w' = console w
             /\ unhandled w' = unhandled w ++ [e]
         end.
Proof.
  cbn zeta. unfold PaymentActions.createCheckbookCustomer, SDK.postUser,
    SDK.core_fetch, SDK.auth. unfold_js.
  next_answer; (split; [reflexivity |]); eexists;
    (split; [since_now; reflexivity |]); cbn; auto.
Qed.

End Payments.

(** C2, as the specification words it, fails on a failure the grant helper
    swallows: the helper hands back [undefined], no authorization links, and
    [addFundingSource] goes on to request the funding source, with [_links]
    undefined. *)
Lemma addFundingSource_goes_on_without_links :
  no_links (createOnDemandAuthorization MoreSamples.swallowing Sample.w0) = true
  /\ In (EvCreateFundingSource
           {| customerId := "cust-1";
              fundingSourceName := "My Bank";
              plaidToken := "processor-1";
              _links := VUndefined |}
           (Throw Sample.boom))
        (since Sample.w0
           (PaymentActions.addFundingSource MoreSamples.swallowing MoreSamples.my_bank
              Sample.w0).2).
Proof.
  split; [reflexivity |]. cbn. auto.
Qed.

(** A grant that throws: one call, no funding source. *)
Lemma addFundingSource_stops_only_on_throw_witness :
  since Sample.w0
    (PaymentActions.addFundingSource Sample.failing MoreSamples.my_bank Sample.w0).2
  = [EvCreateOnDemandAuthorization (Throw Sample.boom)]
  /\ forall opts a,
      ~ In (EvCreateFundingSource opts a)
          (since Sample.w0
             (PaymentActions.addFundingSource Sample.failing MoreSamples.my_bank
                Sample.w0).2).
Proof.
  exact (addFundingSource_stops_only_on_throw Sample.failing MoreSamples.my_bank
           Sample.w0).
Defined.

(** ** Failure handling across the server actions *)

(** Go through the members of a known transcript, looking for the one that
    failed with [e]. *)
Ltac find_failure H He :=
  cbn in H;
  repeat (destruct H as [<- | H];
          [ cbn in He; try discriminate He; try (injection He as <-) | ]);
  try contradiction.

Section Failures.
Context {Account : Type} (env : Env Account).

(** C6, as the code has it.  When an external call of a server action fails
    with [e], the action still resolves, never rejects: [getLoggedInUser]
    resolves to [null], every other action to [undefined].  Save for
    [createCheckbookCustomer], the action then leaves no rejection unhandled
    and writes exactly one line to the console: [console.log(e)] for
    [getLoggedInUser]; [console.error('Error', e)] for [signIn], [signUp] and
    [logoutAccount]; [console.error(e)] for [connectToBankPlaid]; and
    [console.error("Transfer fund failed: ", e)] for [addFundingSource] and
    [createTransfer]. *)
Theorem failure_is_logged_and_swallowed
    (a : Action) (w : World) (ev : Event) (e : value) :
  let r := (perform env a w).1 in
  let w' := (perform env a w).2 in
  In ev (since w w') ->
  error_of ev = Some e ->
  r = Fulfilled (match a with
                 | GetLoggedInUser => VNull
                 | _ => VUndefined
                 end)
  /\ match a with
     | CreateCheckbookCustomer _ => True
     | GetLoggedInUser =>
         console w' = console w ++ [mkLog LevelLog [e]]
         /\ unhandled w' = unhandled w
     | SignIn _ _ | SignUp _ | LogoutAccount =>
         console w' = console w ++ [mkLog LevelError [VStr "Error"; e]]
         /\ unhandled w' = unhandled w
     | ConnectToBankPlaid _ =>
         console w' = console w ++ [mkLog LevelError [e]]
         /\ unhandled w' = unhandled w
     | AddFundingSource _ | CreateTransfer _ =>
         console w' = console w ++ [mkLog LevelError [VStr "Transfer fund failed: "; e]]
         /\ unhandled w' = unhandled w
     end.
Proof.
  cbn zeta. destruct a; cbn [perform];
    unfold UserActions.signIn, UserActions.signUp, UserActions.logoutAccount,
      UserActions.getLoggedInUser, PaymentActions.createCheckbookCustomer,
      PaymentActions.connectToBankPlaid, PaymentActions.addFundingSource,
      PaymentActions.createTransfer, SDK.postUser, SDK.postBankPlaid,
      SDK.core_fetch, SDK.auth;
    unfold_js; repeat next_answer; since_now; intros H He; find_failure H He;
    (split; [reflexivity | first [exact I | split; reflexivity]]).
Qed.

End Failures.

(** C6, as the specification words it, fails on [getLoggedInUser]: when the
    identity provider refuses to return the account, the action resolves to
    [null], which is not [undefined]. *)
Lemma getLoggedInUser_resolves_to_null :
  (exists ev,
      In ev (since Sample.w0 (UserActions.getLoggedInUser Sample.failing Sample.w0).2)
      /\ failed ev = true)
  /\ (UserActions.getLoggedInUser Sample.failing Sample.w0).1 = Fulfilled VNull
  /\ (UserActions.getLoggedInUser Sample.failing Sample.w0).1 <> Fulfilled VUndefined.
Proof.
  split; [| split].
  - exists (EvAccountGet (Throw Sample.boom)). split; [cbn; auto | reflexivity].
  - reflexivity.
  - discriminate.
Qed.

(** The same failing account lookup, through the general statement. *)
Lemma failure_is_logged_and_swallowed_witness :
  (perform Sample.failing GetLoggedInUser Sample.w0).1 = Fulfilled VNull
  /\ console (perform Sample.failing GetLoggedInUser Sample.w0).2
     = console Sample.w0 ++ [mkLog LevelLog [Sample.boom]]
  /\ unhandled (perform Sample.failing GetLoggedInUser Sample.w0).2
     = unhandled Sample.w0.
Proof.
  apply (failure_is_logged_and_swallowed Sample.failing GetLoggedInUser Sample.w0
           (EvAccountGet (Throw Sample.boom)) Sample.boom).
  - cbn. auto.
  - reflexivity.
Defined.

(** * Further properties of the code *)

(** Run an action down to the answers of the outside. *)
Ltac run_action a :=
  destruct a; cbn [perform];
  unfold UserActions.signIn, UserActions.signUp, UserActions.logoutAccount,
    UserActions.getLoggedInUser, PaymentActions.createCheckbookCustomer,
    PaymentActions.connectToBankPlaid, PaymentActions.addFundingSource,
    PaymentActions.createTransfer, SDK.postUser, SDK.postBankPlaid,
    SDK.core_fetch, SDK.auth;
  unfold_js; repeat next_answer.

(** Settle a goal about any member of a transcript that is known in full. *)
Ltac by_member_of H :=
  cbn in H;
  repeat (destruct H as [<- | H]; [reflexivity |]);
  contradiction.

(** ** What every server action keeps *)

Section EveryAction.
Context {Account : Type} (env : Env Account).

(** X1. No server action rejects: whatever the outside answers, the promise
    the action returns is fulfilled. *)
Theorem no_action_rejects (a : Action) (w : World) :
  exists v, (perform env a w).1 = Fulfilled v.
Proof.
  run_action a; eexists; reflexivity.
Qed.

(** X2. A call that fails is the last thing a server action does towards the
    outside: nothing is retried, and nothing that was done before is undone
    by a further call. *)
Theorem failed_call_is_last (a : Action) (w : World) (i : nat) (ev : Event) :
  let evs := since w (perform env a w).2 in
  evs !! i = Some ev ->
  failed ev = true ->
  S i = length evs.
Proof.
  cbn zeta. run_action a; since_now;
    destruct i as [|[|[|[|i]]]]; cbn; intros H; try discriminate H;
      injection H as <-; intros Hf; try discriminate Hf; reflexivity.
Qed.

(** X3. A server action writes at most one line to the console, after the
    lines that were there. *)
Theorem at_most_one_console_line (a : Action) (w : World) :
  exists lines,
    console (perform env a w).2 = console w ++ lines /\ length lines <= 1.
Proof.
  run_action a; cbn [snd console add_log add_event set_cookies set_sdk_auth
                       add_unhandled];
    first [ exists []; split; [symmetry; apply app_nil_r | cbn; lia]
          | eexists [_]; split; [reflexivity | cbn; lia] ].
Qed.

(** X4. The only cookie a server action ever touches is [appwrite-session]:
    every other cookie of the jar is after the run what it was before. *)
Theorem other_cookies_untouched (a : Action) (w : World) (name : string) :
  name <> "appwrite-session" ->
  cookies (perform env a w).2 !! name = cookies w !! name.
Proof.
  intros Hne. run_action a; cbn;
    rewrite ?lookup_insert_ne, ?lookup_delete_ne by congruence; reflexivity.
Qed.

(** X5. Only [signIn], [signUp] and [logoutAccount] write to the cookie
    store: a run of any other action contains no cookie write and leaves the
    jar as it found it. *)
Theorem only_session_actions_write_cookies (a : Action) (w : World) :
  match a with
  | SignIn _ _ | SignUp _ | LogoutAccount => False
  | _ => True
  end ->
  cookies (perform env a w).2 = cookies w
  /\ forall ev, In ev (since w (perform env a w).2) -> writes_cookie ev = false.
Proof.
  intros Ha. destruct a; try contradiction; clear Ha; cbn [perform];
    unfold UserActions.getLoggedInUser, PaymentActions.createCheckbookCustomer,
      PaymentActions.connectToBankPlaid, PaymentActions.addFundingSource,
      PaymentActions.createTransfer, SDK.postUser, SDK.postBankPlaid,
      SDK.core_fetch, SDK.auth;
    unfold_js; repeat next_answer; since_now;
    (split; [reflexivity | intros ev H; by_member_of H]).
Qed.

(** X6. Only [signUp] asks the identity provider to create an account: no
    other action's run contains a call to [account.create]. *)
Theorem only_signUp_creates_accounts (a : Action) (w : World) (ev : Event) :
  (forall userData, a <> SignUp userData) ->
  In ev (since w (perform env a w).2) ->
  creates_account ev = false.
Proof.
  intros Ha. destruct a; try (now contradiction (Ha userData)); clear Ha;
    cbn [perform];
    unfold UserActions.signIn, UserActions.logoutAccount,
      UserActions.getLoggedInUser, PaymentActions.createCheckbookCustomer,
      PaymentActions.connectToBankPlaid, PaymentActions.addFundingSource,
      PaymentActions.createTransfer, SDK.postUser, SDK.postBankPlaid,
      SDK.core_fetch, SDK.auth;
    unfold_js; repeat next_answer; since_now; intros H; by_member_of H.
Qed.

End EveryAction.

(** A refused sign-in: the refusal is the second and last call. *)
Lemma failed_call_is_last_witness :
  length (since Sample.w0
            (perform Sample.failing (SignIn "ann@example.org" "pw") Sample.w0).2)
  = 2.
Proof.
  symmetry.
  apply (failed_call_is_last Sample.failing (SignIn "ann@example.org" "pw") Sample.w0 1
           (EvCreateEmailPasswordSession "ann@example.org" "pw" (Throw Sample.boom)));
    reflexivity.
Defined.

(** A logout removes the session cookie and leaves the other one. *)
Lemma other_cookies_untouched_witness :
  cookie_value
    <$> cookies (perform Sample.happy LogoutAccount MoreSamples.two_cookies).2 !! "theme"
  = Some "dark".
Proof.
  rewrite (other_cookies_untouched Sample.happy LogoutAccount
             MoreSamples.two_cookies "theme").
  - reflexivity.
  - discriminate.
Defined.

Lemma only_session_actions_write_cookies_witness :
  cookies (perform Sample.failing GetLoggedInUser Sample.w0).2 = cookies Sample.w0.
Proof.
  apply (only_session_actions_write_cookies Sample.failing GetLoggedInUser Sample.w0).
  exact I.
Defined.

Lemma only_signUp_creates_accounts_witness :
  creates_account
    (EvCreateEmailPasswordSession "ann@example.org" "pw" (Normal Sample.session))
  = false.
Proof.
  apply (only_signUp_creates_accounts Sample.happy
           (SignIn "ann@example.org" "pw") Sample.w0).
  - discriminate.
  - cbn. auto.
Defined.

(** ** More on the identity actions *)

Section MoreIdentity.
Context {Account : Type} (env : Env Account).

(** X7. Of the ten fields of the sign-up data, [signUp] reads the email, the
    password and the two names: two submissions that agree on these four run
    alike, so the address, the date of birth and the social security number
    never reach the identity provider. *)
Theorem signUp_reads_four_fields (u1 u2 : UserActions.SignUpParams) (w : World) :
  UserActions.email u1 = UserActions.email u2 ->
  UserActions.password u1 = UserActions.password u2 ->
  UserActions.firstName u1 = UserActions.firstName u2 ->
  UserActions.lastName u1 = UserActions.lastName u2 ->
  UserActions.signUp env u1 w = UserActions.signUp env u2 w.
Proof.
  unfold UserActions.signUp. intros -> -> -> ->. reflexivity.
Qed.

(** X8. When any call of a sign-up fails, be it the admin client, the
    account creation or the session, [signUp] resolves to [undefined],
    writes no cookie and leaves the jar as it found it. *)
Theorem signUp_failure_keeps_cookies
    (userData : UserActions.SignUpParams) (w : World) (ev : Event) :
  let r := (UserActions.signUp env userData w).1 in
  let w' := (UserActions.signUp env userData w).2 in
  In ev (since w w') ->
  failed ev = true ->
  r = Fulfilled VUndefined
  /\ cookies w' = cookies w
  /\ (forall ev', In ev' (since w w') -> writes_cookie ev' = false).
Proof.
  cbn zeta.
  destruct (signUp_runs env userData w)
    as [(e & Hev & Hr & Hc) | [(id & n & e & Hev & Hr & Hc)
       | [(id & n & u & e & Hev & Hr & Hc) | (id & n & u & s & Hev & Hc)]]];
    cbn zeta in *; rewrite Hev; intros H Hf.
  4: { exfalso. cbn in H.
       repeat (destruct H as [<- | H]; [discriminate Hf |]). exact H. }
  all: rewrite Hr, Hc; repeat split; intros ev' H'; by_member_of H'.
Qed.

(** X9. When [account.create] throws, [signUp] does not ask for a session. *)
Theorem signUp_stops_after_failed_create
    (userData : UserActions.SignUpParams) (w : World)
    (id email password name : string) (e : value) :
  let evs := since w (UserActions.signUp env userData w).2 in
  In (EvAccountCreate id email password name (Throw e)) evs ->
  forall email' password' a,
    ~ In (EvCreateEmailPasswordSession email' password' a) evs.
Proof.
  cbn zeta.
  destruct (signUp_runs env userData w)
    as [(e' & Hev & _) | [(id' & n & e' & Hev & _)
       | [(id' & n & u & e' & Hev & _) | (id' & n & u & s & Hev & _)]]];
    cbn zeta in *; rewrite Hev; intros H; by_member H;
    intros email' password' a H'; by_member H'.
Qed.


(** X11. A logout that gets its session client, coming after a sign-in, leaves
    the cookie jar as it was before the sign-in less the session cookie,
    whether or not the sign-in went through and whether or not the identity
    provider accepts the logout. *)
Theorem signIn_then_logout (email password : string) (w : World) :
  let w1 := (UserActions.signIn env email password w).2 in
  let w2 := (UserActions.logoutAccount env w1).2 in
  In (EvCreateSessionClient Ok) (since w1 w2) ->
  cookies w2 = delete "appwrite-session" (cookies w).
Proof.
  cbn zeta.
  destruct (logoutAccount_runs env ((UserActions.signIn env email password w).2))
    as [(e & Hev & _ & _) | [(e & Hev & _ & Hc) | (v & Hev & _ & Hc)]];
    cbn zeta in *; rewrite Hev; intros H; by_member H; rewrite Hc;
    (destruct (signIn_runs env email password w)
       as [(e' & _ & _ & Hc') | [(e' & _ & _ & Hc') | (s & _ & Hc')]];
     cbn zeta in Hc'; rewrite Hc'; [reflexivity | reflexivity |
     apply delete_insert_eq]).
Qed.

End MoreIdentity.

(** Two sign-ups that differ in address, date of birth and social security
    number only. *)
Lemma signUp_reads_four_fields_witness :
  UserActions.signUp Sample.happy MoreSamples.ann Sample.w0
  = UserActions.signUp Sample.happy
      (UserActions.mkSignUpParams "Ann" "Lee" "" "" "" "" "" ""
         "ann@example.org" "pw")
      Sample.w0.
Proof.
  apply (signUp_reads_four_fields Sample.happy); reflexivity.
Defined.

(** An account is created, the session is refused: no cookie, [undefined],
    and the older cookie still in the jar. *)
Lemma signUp_failure_keeps_cookies_witness :
  In (EvAccountCreate "id-2" "ann@example.org" "pw" "Ann Lee"
        (Normal (VObj [("$id", VStr "id-2")])))
     (since Sample.w0
        (UserActions.signUp MoreSamples.orphaning MoreSamples.ann Sample.w0).2)
  /\ (UserActions.signUp MoreSamples.orphaning MoreSamples.ann Sample.w0).1
     = Fulfilled VUndefined
  /\ cookies (UserActions.signUp MoreSamples.orphaning MoreSamples.ann Sample.w0).2
     = cookies Sample.w0.
Proof.
  split; [cbn; auto |].
  destruct (signUp_failure_keeps_cookies MoreSamples.orphaning MoreSamples.ann Sample.w0
              (EvCreateEmailPasswordSession "ann@example.org" "pw" (Throw Sample.boom)))
    as (Hr & Hc & _).
  - cbn. auto.
  - reflexivity.
  - split; [exact Hr | exact Hc].
Defined.

Lemma signUp_stops_after_failed_create_witness :
  since Sample.w0 (UserActions.signUp Sample.failing MoreSamples.ann Sample.w0).2
  = [EvCreateAdminClient Ok;
     EvAccountCreate "id-1" "ann@example.org" "pw" "Ann Lee" (Throw Sample.boom)]
  /\ forall email' password' a,
      ~ In (EvCreateEmailPasswordSession email' password' a)
          (since Sample.w0
             (UserActions.signUp Sample.failing MoreSamples.ann Sample.w0).2).
Proof.
  split; [reflexivity |].
  apply (signUp_stops_after_failed_create Sample.failing MoreSamples.ann Sample.w0
           "id-1" "ann@example.org" "pw" "Ann Lee" Sample.boom).
  cbn. auto.
Defined.

(** A sign-in and a logout that both go through, on a request that came
    with an older session cookie: the jar ends without a session cookie. *)
Lemma signIn_then_logout_witness :
  cookies
    (UserActions.logoutAccount Sample.happy
       (UserActions.signIn Sample.happy "ann@example.org" "pw" Sample.w0).2).2
  = delete "appwrite-session" (cookies Sample.w0).
Proof.
  apply (signIn_then_logout Sample.happy "ann@example.org" "pw" Sample.w0).
  cbn. auto.
Defined.

(** ** More on the payment actions *)

Section MorePayments.
Context {Account : Type} (env : Env Account).


(** X13. The two actions on the generated client store the credentials
    [key:secret] in the client and then make their one post, which is
    answered under these credentials; an environment variable that is not set
    shows as the text [undefined], and the post is made all the same.  No
    other action touches the stored credentials or posts through the
    client. *)
Theorem checkbook_credentials (a : Action) (w : World) :
  let w' := (perform env a w).2 in
  let credentials :=
    (default "undefined" (CHECKBOOK_KEY env) ++ ":"
     ++ default "undefined" (CHECKBOOK_SECRET env))%string in
  let posted path body :=
    sdk_auth w' = [credentials]
    /\ since w w'
       = [EvFetch path POST [body]
            (core_fetch_answer env path POST [body] (set_sdk_auth [credentials] w))] in
  match a with
  | CreateCheckbookCustomer newCustomer =>
      posted "/v3/user"
        (VObj [("name", VStr (PaymentActions.firstName newCustomer ++ "_"
                             ++ PaymentActions.lastName newCustomer)%string);
               ("user_id", VStr (PaymentActions.email newCustomer))])
  | ConnectToBankPlaid plaidToken =>
      posted "/v3/account/bank/iav/plaid"
        (VObj [("processor_token", VStr plaidToken)])
  | _ =>
      sdk_auth w' = sdk_auth w
      /\ forall path method args answer,
          ~ In (EvFetch path method args answer) (since w w')
  end.
Proof.
  cbn zeta. unfold PaymentActions.api_key, PaymentActions.api_secret.
  assert (Htpl : forall o, tpl o = default "undefined" o) by (now intros []).
  destruct a; cbn [perform];
    unfold UserActions.signIn, UserActions.signUp, UserActions.logoutAccount,
      UserActions.getLoggedInUser, PaymentActions.createCheckbookCustomer,
      PaymentActions.connectToBankPlaid, PaymentActions.addFundingSource,
      PaymentActions.createTransfer, SDK.postUser, SDK.postBankPlaid,
      SDK.core_fetch, SDK.auth, PaymentActions.api_key, PaymentActions.api_secret;
    unfold_js; rewrite ?Htpl; repeat next_answer; since_now;
    (split; [reflexivity |]);
    first [ reflexivity
          | match goal with
            | Ha : core_fetch_answer _ _ _ _ _ = _ |- _ = _ =>
                rewrite <- Ha; reflexivity
            end
          | intros path method args answer H; by_member H ].
Qed.

End MorePayments.

(** ** More on the generated client *)

(** X14. No two operations of the generated client share both the path
    template and the HTTP method. *)
Theorem route_identifies_operation (op1 op2 : SDK.Operation) :
  op1 <> op2 -> SDK.route op1 <> SDK.route op2.
Proof.
  intros Hne Heq. apply Hne. clear Hne.
  destruct op1; destruct op2; first [reflexivity | discriminate Heq].
Qed.

(** Getting and creating a user share the path and differ in the method. *)
Lemma route_identifies_operation_witness :
  (SDK.route SDK.OpGetUser).1 = (SDK.route SDK.OpPostUser).1
  /\ SDK.route SDK.OpGetUser <> SDK.route SDK.OpPostUser.
Proof.
  split; [reflexivity |].
  apply route_identifies_operation. discriminate.
Defined.

(** ** The submit handler of the form *)

Section SubmitHandler.
Context {Account : Type} (env : Env Account).

(** X15. Submitting the sign-in form runs [signIn] on the email and the
    password and nothing else.  When it is over the loading flag is down and
    [user] is what it was; the handler has navigated to [/] exactly when
    [signIn] resolved to a truthy value. *)
Theorem onSubmit_signIn_navigates
    (data : UserActions.SignUpParams) (ui : AuthForm.UI) (w : World) :
  let run :=
    UserActions.signIn env (UserActions.email data) (UserActions.password data) w in
  let out := AuthForm.onSubmit env AuthForm.SignInType data ui w in
  out.2 = run.2
  /\ AuthForm.isLoading out.1 = false
  /\ AuthForm.user out.1 = AuthForm.user ui
  /\ exists response,
      run.1 = Fulfilled response
      /\ AuthForm.pushed out.1
         = if truthy response then AuthForm.pushed ui ++ ["/"] else AuthForm.pushed ui.
Proof.
  cbn zeta. unfold AuthForm.onSubmit, UserActions.signIn.
  unfold_js. repeat next_answer; cbn [fst snd];
    (do 3 (split; [try reflexivity |])); try (eexists; split; reflexivity).
  all: match goal with |- context [truthy ?v] => destruct (truthy v) eqn:Ht end;
    try reflexivity; eexists; (split; [reflexivity |]); rewrite Ht; reflexivity.
Qed.

(** X16. A sign-in in which any call fails does not navigate, leaves the
    cookie jar alone, and leaves the form on screen with its button enabled
    again if it was on screen before. *)
Theorem onSubmit_failed_signIn_stays
    (data : UserActions.SignUpParams) (ui : AuthForm.UI) (w : World) (ev : Event) :
  let out := AuthForm.onSubmit env AuthForm.SignInType data ui w in
  In ev (since w out.2) ->
  failed ev = true ->
  AuthForm.pushed out.1 = AuthForm.pushed ui
  /\ cookies out.2 = cookies w
  /\ (truthy (AuthForm.user ui) = false ->
      AuthForm.render AuthForm.SignInType out.1 = AuthForm.FormView false false).
Proof.
  cbn zeta. unfold AuthForm.onSubmit, AuthForm.render, UserActions.signIn.
  unfold_js. repeat next_answer; cbn [fst snd]; since_now; intros H Hf.
  all: try (exfalso; cbn in H;
            repeat (destruct H as [<- | H]; [discriminate Hf |]); exact H).
  all: cbn; repeat split; intros ->; reflexivity.
Qed.

(** X17. Submitting the sign-up form runs [signUp] on the form values and
    never navigates.  When it is over the loading flag is down and [user] is
    what [signUp] resolved to; if that is truthy the bank-link button takes
    the place of the form. *)
Theorem onSubmit_signUp_sets_user
    (data : UserActions.SignUpParams) (ui : AuthForm.UI) (w : World) :
  let run := UserActions.signUp env data w in
  let out := AuthForm.onSubmit env AuthForm.SignUpType data ui w in
  out.2 = run.2
  /\ AuthForm.isLoading out.1 = false
  /\ AuthForm.pushed out.1 = AuthForm.pushed ui
  /\ exists newUser,
      run.1 = Fulfilled newUser
      /\ AuthForm.user out.1 = newUser
      /\ (truthy newUser = true ->
          AuthForm.render AuthForm.SignUpType out.1 = AuthForm.PlaidLinkView newUser).
Proof.
  cbn zeta. unfold AuthForm.onSubmit, AuthForm.render, UserActions.signUp.
  destruct data; cbn [UserActions.firstName UserActions.lastName
    UserActions.address1 UserActions.city UserActions.state
    UserActions.postalCode UserActions.dateOfBirth UserActions.ssn
    UserActions.email UserActions.password].
  unfold_js. repeat next_answer; cbn [fst snd];
    (do 3 (split; [reflexivity |])); eexists; (do 2 (split; [reflexivity |]));
    cbn; intros H; try discriminate H; rewrite H; reflexivity.
Qed.

(** X18. A sign-up in which any call fails sets [user] to [undefined]: the
    form with the sign-up fields stays on screen, its button enabled again,
    and a bank-link button that was shown before is gone. *)
Theorem onSubmit_failed_signUp_shows_form
    (data : UserActions.SignUpParams) (ui : AuthForm.UI) (w : World) (ev : Event) :
  let out := AuthForm.onSubmit env AuthForm.SignUpType data ui w in
  In ev (since w out.2) ->
  failed ev = true ->
  AuthForm.user out.1 = VUndefined
  /\ AuthForm.render AuthForm.SignUpType out.1 = AuthForm.FormView true false.
Proof.
  cbn zeta. unfold AuthForm.onSubmit, AuthForm.render, UserActions.signUp.
  unfold_js. repeat next_answer; cbn [fst snd]; since_now; intros H Hf.
  all: try (exfalso; cbn in H;
            repeat (destruct H as [<- | H]; [discriminate Hf |]); exact H).
  all: cbn; split; reflexivity.
Qed.

End SubmitHandler.

Lemma onSubmit_failed_signIn_stays_witness :
  AuthForm.pushed
    (AuthForm.onSubmit Sample.failing AuthForm.SignInType MoreSamples.ann
       AuthForm.initial Sample.w0).1 = []
  /\ AuthForm.render AuthForm.SignInType
       (AuthForm.onSubmit Sample.failing AuthForm.SignInType MoreSamples.ann
          AuthForm.initial Sample.w0).1
     = AuthForm.FormView false false.
Proof.
  destruct (onSubmit_failed_signIn_stays Sample.failing MoreSamples.ann
              AuthForm.initial Sample.w0
              (EvCreateEmailPasswordSession "ann@example.org" "pw" (Throw Sample.boom)))
    as (Hp & _ & Hr).
  - cbn. auto.
  - reflexivity.
  - split; [exact Hp | apply Hr; reflexivity].
Defined.

Lemma onSubmit_failed_signUp_shows_form_witness :
  AuthForm.render AuthForm.SignUpType
    (AuthForm.onSubmit MoreSamples.orphaning AuthForm.SignUpType MoreSamples.ann
       AuthForm.initial Sample.w0).1
  = AuthForm.FormView true false.
Proof.
  apply (onSubmit_failed_signUp_shows_form MoreSamples.orphaning MoreSamples.ann
           AuthForm.initial Sample.w0
           (EvCreateEmailPasswordSession "ann@example.org" "pw" (Throw Sample.boom))).
  - cbn. auto.
  - reflexivity.
Defined.

(** ** What the identity actions resolve to *)

Section IdentityResults.
Context {Account : Type} (env : Env Account).

(** X19. Once the identity provider has issued a session, [signIn] resolves
    to what [parseStringify] makes of the session.  If [parseStringify]
    throws, the error is logged and [signIn] resolves to [undefined] although
    the session cookie is already in the jar. *)
Theorem signIn_resolves_to_session (email password : string) (w : World) (s : Session) :
  let r := (UserActions.signIn env email password w).1 in
  let w' := (UserActions.signIn env email password w).2 in
  In (EvCreateEmailPasswordSession email password (Normal s)) (since w w') ->
  match parseStringify env s with
  | Normal v => r = Fulfilled v /\ console w' = console w
  | Throw e =>
      r = Fulfilled VUndefined
      /\ console w' = console w ++ [mkLog LevelError [VStr "Error"; e]]
      /\ cookie_value <$> cookies w' !! "appwrite-session" = Some (secret s)
  end.
Proof.
  cbn zeta. unfold UserActions.signIn. unfold_js.
  next_answer; [next_answer |].
  - destruct (parseStringify env _) eqn:Hp; cbn [fst snd]; since_now;
      intros H; by_member H; rewrite Hp; repeat split.
    cbn. rewrite lookup_insert_eq. reflexivity.
  - since_now. intros H. by_member H.
  - since_now. intros H. by_member H.
Qed.


(** X21. A sign-up in which the account is created and the session issued
    resolves to what [parseStringify] makes of the account, not of the
    session. *)
Theorem signUp_resolves_to_account
    (userData : UserActions.SignUpParams) (w : World)
    (id email password name : string) (account : value) (s : Session) :
  let r := (UserActions.signUp env userData w).1 in
  let evs := since w (UserActions.signUp env userData w).2 in
  In (EvAccountCreate id email password name (Normal account)) evs ->
  In (EvCreateEmailPasswordSession email password (Normal s)) evs ->
  r = match parseStringify env account with
      | Normal v => Fulfilled v
      | Throw _ => Fulfilled VUndefined
      end.
Proof.
  cbn zeta. unfold UserActions.signUp. unfold_js.
  next_answer; [next_answer; [next_answer |] |].
  - destruct (parseStringify env _) eqn:Hp; cbn [fst snd]; since_now;
      intros H H'; by_member H; rewrite Hp; reflexivity.
  - since_now. intros H H'. by_member H. by_member H'.
  - since_now. intros H H'. by_member H.
  - since_now. intros H H'. by_member H.
Qed.

End IdentityResults.

Lemma signIn_resolves_to_session_witness :
  (UserActions.signIn Sample.happy "ann@example.org" "pw" Sample.w0).1
  = Fulfilled (VObj []).
Proof.
  apply (signIn_resolves_to_session Sample.happy "ann@example.org" "pw" Sample.w0
           Sample.session).
  cbn. auto.
Defined.


Lemma signUp_resolves_to_account_witness :
  (UserActions.signUp Sample.happy MoreSamples.ann Sample.w0).1 = Fulfilled (VObj []).
Proof.
  apply (signUp_resolves_to_account Sample.happy MoreSamples.ann Sample.w0
           "id-1" "ann@example.org" "pw" "Ann Lee"
           (VObj [("$id", VStr "id-1")]) Sample.session);
    cbn; auto.
Defined.
